(** * Alexa-Chromecast-Skill: the SNS subscriber of [local/skill_subscriber.py]

    A shallow embedding of the [Subscriber] class: the subscription
    life cycle ([confirm_subscription], [unsubscribe], [shutdown]), the
    heartbeat loop ([ping]), the webhook ([SNSRequestHandler.do_POST]) and
    the dispatcher ([dispatch_notification]).

    Python statements become computations in a small state-and-exception
    monad over a [World]: the fields of the [Subscriber] instance and the
    chronological trace of every effect the code performs on its
    collaborators (logger, clock, boto3 SNS client, miniupnpc, HTTP server,
    heartbeat thread, skills).  What the collaborators answer is not in the
    source: it is read from an arbitrary environment [Env], indexed by the
    position the call takes in the trace. *)

From stdpp Require Import base strings list gmap pretty.
From Stdlib Require Import ZArith Lia.

#[local] Set Warnings "-register-all".

(** ** Values *)

(** What [json.loads] returns: dict, list, str, int, float, bool or None.
    A dict is kept as the list of its items, a float as the pair of its
    mantissa and binary exponent. *)
Inductive json : Type :=
| JNull
| JBool (b : bool)
| JInt (n : Z)
| JFloat (mantissa exponent : Z)
| JString (s : string)
| JArray (items : list json)
| JObject (items : list (string * json)).

(** The exceptions that can travel through the code.  [sys.exit(n)] raises
    [SystemExit n]; a bare [except:] catches every one of them. *)
Inductive exn : Type :=
| SystemExit (code : Z)
| RuntimeError (msg : string)
| KeyError (key : string)
| TypeError
| AttributeError
| ValueError
| JSONDecodeError
| ClientError (operation : string)
| Exception (what : string).

(** How a Python call ends: it returns, it raises, or ([os.execl]) the
    process image is replaced and no statement after it ever runs. *)
Inductive outcome (A : Type) : Type :=
| Return (a : A)
| Raise (e : exn)
| Replaced.
Arguments Return {A} a.
Arguments Raise {A} e.
Arguments Replaced {A}.

Inductive Level : Type := DEBUG | INFO | ERROR | EXCEPTION.

Inductive LogArg : Type :=
| AInt (n : Z)
| AStr (s : string)
| AJson (v : json).

(** One entry of [response['Subscriptions']]. *)
Record Subscription : Type := {
  SubscriptionArn : string;
  Endpoint : string;
  TopicArn : string
}.

(** Every effect on a collaborator. *)
Inductive Event : Type :=
| Log (lvl : Level) (msg : string) (args : list LogArg)
| ClockRead
| Sleep (secs : Z)
| Execl
| SnsListSubscriptionsByTopic (topic : string)
| SnsPublish (topic : string) (message : json)
| SnsConfirmSubscription (topic : option string) (token : json)
| SnsUnsubscribe (arn : string)
| UpnpDeletePortMapping (port : Z) (proto : string)
| ServerShutdown
| ThreadStart
| ThreadJoin (timeout : Z)
| SendResponse (code : Z)
| SendHeader (key value : string)
| EndHeaders
| WfileWrite (body : string)
| RfileRead (n : Z)
| SkillsGet (key : json)
| HandleCommand (room command data : json).

(** A skill: [handle_command room command data] returns ([None]) or raises;
    the last argument is the position of the call in the trace. *)
Record Skill : Type := {
  handle_command : json → json → json → nat → option exn
}.

(** ** The instance and the world around it *)

(** The fields of [Subscriber] the methods read and write.
    [last_ping_sent] starts as [False] and [last_ping_received] as [None]:
    both are [None] here, a [datetime] being always truthy.  Timestamps are
    microseconds, the resolution of [datetime]. [ping_thread_started] is the
    state of [self.ping_thread]. *)
Record Subscriber : Type := {
  last_ping_sent : option Z;
  last_ping_received : option Z;
  ping_thread_started : bool;
  stopped : bool;
  manual_port_forward : bool;
  skills : gmap string Skill;
  topic_arn : string;
  endpoint_url : string;
  server_port : Z
}.

Record World : Type := {
  self : Subscriber;
  trace : list Event
}.

(** The answers of the collaborators.  [None] or [false] is a call that
    raises. *)
Record Env : Type := {
  clock : nat → Z;
  upnp_deleteportmapping : nat → option bool;
  sns_list_subscriptions_by_topic : nat → option (list Subscription);
  sns_publish : nat → bool;
  sns_confirm_subscription : nat → bool;
  sns_unsubscribe : nat → bool;
  json_loads : string → option json;
  py_int : string → option Z
}.

(** An HTTP request as [do_POST] sees it. *)
Record Request : Type := {
  content_length : option string;
  x_amz_sns_topic_arn : option string;
  rfile : string
}.

(** ** The monad *)

Definition M (A : Type) : Type := World → outcome A * World.

Definition M_ret {A} (a : A) : M A := λ w, (Return a, w).

Definition M_bind {A B} (f : A → M B) (m : M A) : M B :=
  λ w, match m w with
       | (Return a, w') => f a w'
       | (Raise e, w') => (Raise e, w')
       | (Replaced, w') => (Replaced, w')
       end.

#[export] Instance M_mret : MRet M := @M_ret.
#[export] Instance M_mbind : MBind M := @M_bind.

Definition raise {A} (e : exn) : M A := λ w, (Raise e, w).

(** [try: body except: handler]: the bare [except] takes every exception,
    [SystemExit] included. *)
Definition try_except {A} (body : M A) (handler : exn → M A) : M A :=
  λ w, match body w with
       | (Raise e, w') => handler e w'
       | r => r
       end.

Definition emit (ev : Event) : M unit :=
  λ w, (Return tt, {| self := self w; trace := trace w ++ [ev] |}).

(** The position the next effect takes in the trace. *)
Definition tick (w : World) : nat := length (trace w).

Definition ask {A} (f : nat → A) : M A := λ w, (Return (f (tick w)), w).

Definition gets {A} (f : Subscriber → A) : M A := λ w, (Return (f (self w)), w).

Definition modify (f : Subscriber → Subscriber) : M unit :=
  λ w, (Return tt, {| self := f (self w); trace := trace w |}).

Definition set_last_ping_sent (v : option Z) (s : Subscriber) : Subscriber :=
  {| last_ping_sent := v;
     last_ping_received := last_ping_received s;
     ping_thread_started := ping_thread_started s;
     stopped := stopped s;
     manual_port_forward := manual_port_forward s;
     skills := skills s;
     topic_arn := topic_arn s;
     endpoint_url := endpoint_url s;
     server_port := server_port s |}.

Definition set_last_ping_received (v : option Z) (s : Subscriber) : Subscriber :=
  {| last_ping_sent := last_ping_sent s;
     last_ping_received := v;
     ping_thread_started := ping_thread_started s;
     stopped := stopped s;
     manual_port_forward := manual_port_forward s;
     skills := skills s;
     topic_arn := topic_arn s;
     endpoint_url := endpoint_url s;
     server_port := server_port s |}.

Definition set_ping_thread_started (v : bool) (s : Subscriber) : Subscriber :=
  {| last_ping_sent := last_ping_sent s;
     last_ping_received := last_ping_received s;
     ping_thread_started := v;
     stopped := stopped s;
     manual_port_forward := manual_port_forward s;
     skills := skills s;
     topic_arn := topic_arn s;
     endpoint_url := endpoint_url s;
     server_port := server_port s |}.

Definition set_stopped (v : bool) (s : Subscriber) : Subscriber :=
  {| last_ping_sent := last_ping_sent s;
     last_ping_received := last_ping_received s;
     ping_thread_started := ping_thread_started s;
     stopped := v;
     manual_port_forward := manual_port_forward s;
     skills := skills s;
     topic_arn := topic_arn s;
     endpoint_url := endpoint_url s;
     server_port := server_port s |}.

(** ** Python primitives *)

Definition PING_SECS : Z := 600.

Definition sys_exit {A} (code : Z) : M A := raise (SystemExit code).

Definition log (lvl : Level) (msg : string) (args : list LogArg) : M unit :=
  emit (Log lvl msg args).

(** [d[key]] on the items of a dict. *)
Fixpoint dict_get (key : string) (items : list (string * json)) : option json :=
  match items with
  | [] => None
  | (k, v) :: rest => if String.eqb k key then Some v else dict_get key rest
  end.

(** [obj[key]] with a string key: [KeyError] on a dict without the key,
    [TypeError] on a list, a string or anything not subscriptable. *)
Definition subscript (obj : json) (key : string) : M json :=
  match obj with
  | JObject items =>
      match dict_get key items with
      | Some v => mret v
      | None => raise (KeyError key)
      end
  | _ => raise TypeError
  end.

(** [v == 'literal']. *)
Definition eq_str (v : json) (literal : string) : bool :=
  match v with
  | JString s => String.eqb s literal
  | _ => false
  end.

(** Truth value of an object in a condition. *)
Definition truthy (v : json) : bool :=
  match v with
  | JNull => false
  | JBool b => b
  | JInt n => negb (n =? 0)%Z
  | JFloat m _ => negb (m =? 0)%Z
  | JString s => negb (String.eqb s "")
  | JArray items => match items with [] => false | _ => true end
  | JObject items => match items with [] => false | _ => true end
  end.

(** [s[:n]]. *)
Definition slice_to (n : nat) (s : string) : string := String.substring 0 n s.

Section Bridge.

Variable E : Env.

(** [datetime.now()]. *)
Definition datetime_now : M Z :=
  now ← ask (clock E);
  emit ClockRead;;
  mret now.

(** [(datetime.now() - since).total_seconds() > secs].  A timedelta is a
    whole number of microseconds and its [total_seconds()] is the correctly
    rounded quotient by 10^6, so the comparison with the integer [secs] is
    the comparison of the microseconds with [secs * 10^6]. *)
Definition seconds_since_exceed (since secs : Z) : M bool :=
  now ← datetime_now;
  mret (bool_decide (secs * 1000000 < now - since)%Z).

Definition time_sleep (secs : Z) : M unit := emit (Sleep secs).

(** [os.execl(sys.executable, sys.executable, '-m', 'local.main')]. *)
Definition restart {A} : M A :=
  λ w, (Replaced, {| self := self w; trace := trace w ++ [Execl] |}).

Definition list_subscriptions_by_topic (topic : string) : M (list Subscription) :=
  r ← ask (sns_list_subscriptions_by_topic E);
  emit (SnsListSubscriptionsByTopic topic);;
  match r with
  | Some subs => mret subs
  | None => raise (ClientError "ListSubscriptionsByTopic")
  end.

Definition publish (topic : string) (message : json) : M unit :=
  ok ← ask (sns_publish E);
  emit (SnsPublish topic message);;
  if ok : bool then mret tt else raise (ClientError "Publish").

Definition sns_client_confirm_subscription (topic : option string) (token : json) : M unit :=
  ok ← ask (sns_confirm_subscription E);
  emit (SnsConfirmSubscription topic token);;
  if ok : bool then mret tt else raise (ClientError "ConfirmSubscription").

Definition sns_client_unsubscribe (arn : string) : M unit :=
  ok ← ask (sns_unsubscribe E);
  emit (SnsUnsubscribe arn);;
  if ok : bool then mret tt else raise (ClientError "Unsubscribe").

Definition deleteportmapping (port : Z) (proto : string) : M bool :=
  r ← ask (upnp_deleteportmapping E);
  emit (UpnpDeletePortMapping port proto);;
  match r with
  | Some b => mret b
  | None => raise (Exception "miniupnpc")
  end.

(** [self.ping_thread.start()]: a thread starts once. *)
Definition ping_thread_start : M unit :=
  started ← gets ping_thread_started;
  if started : bool then raise (RuntimeError "threads can only be started once")
  else modify (set_ping_thread_started true);; emit ThreadStart.

(** [self.ping_thread.join(5)]. *)
Definition ping_thread_join (timeout : Z) : M unit :=
  started ← gets ping_thread_started;
  if started : bool then emit (ThreadJoin timeout)
  else raise (RuntimeError "cannot join thread before it is started").

(** [self.skills.get(key)] on a dict keyed by handler names: a list or a
    dict is not hashable, and no other non-string equals a string. *)
Definition skills_get (key : json) : M (option Skill) :=
  emit (SkillsGet key);;
  match key with
  | JString name => reg ← gets skills; mret (reg !! name)
  | JArray _ | JObject _ => raise TypeError
  | _ => mret None
  end.

Definition call_handle_command (sk : Skill) (room command data : json) : M unit :=
  r ← ask (handle_command sk room command data);
  emit (HandleCommand room command data);;
  match r with
  | None => mret tt
  | Some e => raise e
  end.

(** ** [Subscriber.ping] *)

(** The body of the [if] of lines 102 to 118. *)
Definition ping_cycle : M unit :=
  topic ← gets topic_arn;
  subscriptions ← list_subscriptions_by_topic topic;
  (if (length subscriptions =? 0)%nat
   then log ERROR "No clients are subscribed." []
   else log INFO "%i clients are subscribed." [AInt (Z.of_nat (length subscriptions))]);;
  received ← gets last_ping_received;
  overdue ← match received with
            | None => mret false
            | Some r => seconds_since_exceed r (PING_SECS * 2)
            end;
  (if overdue : bool
   then log ERROR "No ping received for {} seconds. Restarting process..."
            [AInt (PING_SECS * 2)];;
        restart
   else mret tt);;
  log INFO "Sending ping..." [];;
  publish topic (JObject [("command", JString "ping")]);;
  now ← datetime_now;
  modify (set_last_ping_sent (Some now)).

(** One turn of [while not self.stopped]; [false] when the loop is left. *)
Definition ping_step : M bool :=
  stop ← gets stopped;
  if stop : bool then mret false
  else
    sent ← gets last_ping_sent;
    due ← match sent with
          | None => mret true
          | Some t => seconds_since_exceed t PING_SECS
          end;
    (if due : bool then ping_cycle else time_sleep 1);;
    mret true.

(** The loop, for at most [fuel] turns: [true] when it was left because
    [stopped] was seen. *)
Fixpoint ping (fuel : nat) : M bool :=
  match fuel with
  | O => mret false
  | S fuel' => again ← ping_step; if again : bool then ping fuel' else mret true
  end.

(** ** [Subscriber.unsubscribe] *)

(** The [for sub in response['Subscriptions']] loop with its [break]. *)
Fixpoint find_subscription (topic url : string) (subs : list Subscription) : option string :=
  match subs with
  | [] => None
  | sub :: rest =>
      if String.eqb (TopicArn sub) topic && String.eqb (Endpoint sub) url
      then Some (SubscriptionArn sub)
      else find_subscription topic url rest
  end.

Definition unsubscribe : M unit :=
  manual ← gets manual_port_forward;
  (if manual : bool then mret tt
   else
     port ← gets server_port;
     result ← deleteportmapping port "TCP";
     if result : bool
     then log DEBUG "Removed forward for port {}." [AInt port]
     else raise (RuntimeError "Failed to remove port forward for {}."));;
  topic ← gets topic_arn;
  subs ← list_subscriptions_by_topic topic;
  url ← gets endpoint_url;
  match find_subscription topic url subs with
  | Some arn =>
      if String.eqb (slice_to 12 arn) "arn:aws:sns:"
      then sns_client_unsubscribe arn
      else mret tt
  | None => mret tt
  end;;
  sys_exit 0.

(** ** [Subscriber.shutdown] *)

Definition shutdown : M unit :=
  stop ← gets stopped;
  if stop : bool then mret tt
  else
    modify (set_stopped true);;
    log INFO "Shutting down HTTP listener" [];;
    unsubscribe;;
    emit ServerShutdown;;
    ping_thread_join 5.

(** ** [Subscriber.confirm_subscription] *)

Definition confirm_subscription (topic : option string) (token : json) : M unit :=
  try_except
    (sns_client_confirm_subscription topic token;;
     log INFO "Subscribed." [];;
     ping_thread_start)
    (λ _,
       log EXCEPTION "Failed to confirm subscription. Please check in AWS." [];;
       sys_exit 1).

(** ** [Subscriber.dispatch_notification] *)

(** The [try] block.  In the call of line 233 the attribute
    [skill.handle_command] is looked up before the arguments are
    evaluated. *)
Definition dispatch_body (notification : json) : M unit :=
  command ← subscript notification "command";
  if eq_str command "ping"
  then
    log INFO "Received ping." [];;
    now ← datetime_now;
    modify (set_last_ping_received (Some now))
  else
    name ← subscript notification "handler_name";
    skill ← skills_get name;
    match skill with
    | None => raise AttributeError
    | Some sk =>
        room ← subscript notification "room";
        command' ← subscript notification "command";
        data ← subscript notification "data";
        call_handle_command sk room command' data
    end.

Definition dispatch_notification (notification : json) : M unit :=
  try_except
    (dispatch_body notification)
    (λ _, log EXCEPTION "Unexpected error handling message" []).

(** ** [SNSRequestHandler.do_POST] *)

(** [int(self.headers['Content-Length'])]: a missing header reads as
    [None]. *)
Definition int_of_header (h : option string) : M Z :=
  match h with
  | None => raise TypeError
  | Some s =>
      match py_int E s with
      | Some n => mret n
      | None => raise ValueError
      end
  end.

(** [self.rfile.read(n)]: the first [n] bytes, everything when [n] is
    negative. *)
Definition rfile_read (req : Request) (n : Z) : M string :=
  emit (RfileRead n);;
  mret (if (n <? 0)%Z then rfile req else slice_to (Z.to_nat n) (rfile req)).

Definition loads (raw : string) : M json :=
  match json_loads E raw with
  | Some v => mret v
  | None => raise JSONDecodeError
  end.

(** [json.loads(v)] on a value that has to be a string. *)
Definition loads_value (v : json) : M json :=
  match v with
  | JString s => loads s
  | _ => raise TypeError
  end.

(** What follows the three lines of the response. *)
Definition process_body (req : Request) : M unit :=
  n ← int_of_header (content_length req);
  raw_data ← rfile_read req n;
  data ← loads raw_data;
  let header_topic_arn := x_amz_sns_topic_arn req in
  msg_type ← subscript data "Type";
  if eq_str msg_type "SubscriptionConfirmation"
  then
    log INFO "Received subscription confirmation..." [];;
    token ← subscript data "Token";
    confirm_subscription header_topic_arn token
  else if eq_str msg_type "Notification"
  then
    message ← subscript data "Message";
    if truthy message
    then
      log INFO "Received message:" [];;
      shown ← loads_value message;
      log INFO "{}" [AJson shown];;
      notification ← loads_value message;
      dispatch_notification notification
    else mret tt
  else mret tt.

Definition do_POST (req : Request) : M unit :=
  emit (SendResponse 200);;
  emit (SendHeader "content-type" "text/html");;
  emit EndHeaders;;
  process_body req.

(** The deliveries of a list of subscription confirmations, one call of
    [confirm_subscription] each, until one does not return. *)
Fixpoint deliver_confirmations (cs : list (option string * json)) : M unit :=
  match cs with
  | [] => mret tt
  | (topic, token) :: rest =>
      confirm_subscription topic token;;
      deliver_confirmations rest
  end.

End Bridge.

(** ** Properties of a run *)

(** The world after a computation and the way the computation ended. *)
Definition world_after {A} (m : M A) (w : World) : World := (m w).2.
Definition ending {A} (m : M A) (w : World) : outcome A := (m w).1.

(** [steps R m]: every run of [m] takes a world to one related by [R]. *)
Definition steps {A} (R : relation World) (m : M A) : Prop :=
  ∀ w, R w (world_after m w).

(** The trace only grows, by events that all satisfy [P]. *)
Definition extends_with (P : Event → Prop) : relation World :=
  λ w w', ∃ evs, trace w' = trace w ++ evs ∧ Forall P evs.

(** [stopped], once true, is still true. *)
Definition stays_stopped : relation World :=
  λ w w', stopped (self w) = true → stopped (self w') = true.

(** The events a run from [w] to [w'] added to the trace. *)
Definition emitted (w w' : World) : list Event := drop (length (trace w)) (trace w').

(** A computation that raises or replaces the process, whatever the world. *)
Definition never_returns {A} (m : M A) : Prop :=
  ∀ w a, ending m w ≠ Return a.

Definition is_thread_start (ev : Event) : bool :=
  match ev with ThreadStart => true | _ => false end.

(** How many times [self.ping_thread.start()] succeeded. *)
Definition thread_starts (evs : list Event) : nat :=
  length (filter (λ ev, is_thread_start ev = true) evs).

(** The events that write to the HTTP response. *)
Definition is_response (ev : Event) : Prop :=
  match ev with
  | SendResponse _ | SendHeader _ _ | EndHeaders | WfileWrite _ => True
  | _ => False
  end.

(** The two steps of [shutdown] that come after [unsubscribe]. *)
Definition is_teardown (ev : Event) : Prop :=
  match ev with
  | ServerShutdown | ThreadJoin _ => True
  | _ => False
  end.

(** More than [PING_SECS * 2] seconds lie between [since] and [now]. *)
Definition overdue (now since : Z) : Prop :=
  (PING_SECS * 2 * 1000000 < now - since)%Z.

Definition is_publish (ev : Event) : Prop :=
  match ev with
  | SnsPublish _ _ => True
  | _ => False
  end.

Definition is_restart (ev : Event) : Prop :=
  match ev with
  | Execl => True
  | _ => False
  end.

Definition is_error_log (ev : Event) : Prop :=
  match ev with
  | Log ERROR _ _ | Log EXCEPTION _ _ => True
  | _ => False
  end.

Definition is_handler_call (ev : Event) : Prop :=
  match ev with
  | HandleCommand _ _ _ => True
  | _ => False
  end.


(** The world after [n] further calls of a signal handler, each one
    starting where the previous one left the instance. *)
Fixpoint repeat_call (m : M unit) (n : nat) (w : World) : World :=
  match n with
  | O => w
  | S n' => repeat_call m n' (world_after m w)
  end.

(** ** Concrete inputs *)

(** An environment in which every collaborator succeeds, the topic has no
    subscription and the clock shows second 5000. *)
Definition calm_env : Env :=
  {| clock := λ _, 5000000000%Z;
     upnp_deleteportmapping := λ _, Some true;
     sns_list_subscriptions_by_topic := λ _, Some [];
     sns_publish := λ _, true;
     sns_confirm_subscription := λ _, true;
     sns_unsubscribe := λ _, true;
     json_loads := λ _, None;
     py_int := λ _, None |}.

(** The same, with a router that refuses to delete the port mapping. *)
Definition stuck_router_env : Env :=
  {| clock := λ _, 5000000000%Z;
     upnp_deleteportmapping := λ _, Some false;
     sns_list_subscriptions_by_topic := λ _, Some [];
     sns_publish := λ _, true;
     sns_confirm_subscription := λ _, true;
     sns_unsubscribe := λ _, true;
     json_loads := λ _, None;
     py_int := λ _, None |}.

(** The instance as [__init__] leaves it. *)
Definition new_subscriber (manual : bool) : Subscriber :=
  {| last_ping_sent := None;
     last_ping_received := None;
     ping_thread_started := false;
     stopped := false;
     manual_port_forward := manual;
     skills := ∅;
     topic_arn := "arn:aws:sns:eu-west-1:1:alexa";
     endpoint_url := "http://203.0.113.7:8080";
     server_port := 8080 |}.

Definition new_world (manual : bool) : World :=
  {| self := new_subscriber manual; trace := [] |}.

(** A ping went out at second 0 and no acknowledgement ever came back. *)
Definition unanswered_world : World :=
  {| self := set_last_ping_sent (Some 0%Z) (new_subscriber true); trace := [] |}.



Definition some_confirmation : option string * json :=
  (Some "arn:aws:sns:eu-west-1:1:alexa", JString "token-1").

Definition ghost_notification : json :=
  JObject [("command", JString "play"); ("handler_name", JString "ghost");
           ("room", JString "den"); ("data", JObject [])].

(** A heartbeat that also names a handler nobody registered. *)
Definition ghost_heartbeat : json :=
  JObject [("command", JString "ping"); ("handler_name", JString "ghost")].


(** ** [Subscriber.serve_forever] *)

(** Whether an exception derives from [Exception]: [SystemExit] does not. *)
Definition is_Exception (e : exn) : bool :=
  match e with
  | SystemExit _ => false
  | _ => true
  end.

(** How the accept loop stands when the requests at hand are used up: it
    was left, or it blocks in [handle_request] for the next one. *)
Inductive Served : Type := LoopLeft | Waiting.

Section Listener.

Variable E : Env.

(** [self.server.handle_request()] when a POST comes in.  The server of the
    standard library runs [do_POST] inside [try: ... except Exception:]: an
    exception that derives from [Exception] is reported on stderr by
    [handle_error] and dropped, any other one is raised again. *)
Definition handle_request (req : Request) : M unit :=
  λ w, match do_POST E req w with
       | (Raise e, w') => if is_Exception e then (Return tt, w') else (Raise e, w')
       | r => r
       end.

(** [while not self.stopped: self.server.handle_request()] over the
    requests that come in. *)
Fixpoint serve_loop (reqs : list Request) : M Served :=
  match reqs with
  | [] =>
      stop ← gets stopped;
      mret (if stop : bool then LoopLeft else Waiting)
  | req :: rest =>
      stop ← gets stopped;
      if stop : bool then mret LoopLeft
      else handle_request req;; serve_loop rest
  end.

Definition serve_forever (reqs : list Request) : M Served :=
  try_except
    (serve_loop reqs)
    (λ _, log EXCEPTION "Unexpected error" [];; mret LoopLeft).

End Listener.

(** ** Construction: [__init__], [initialize_upnp], [get_external_ip], [subscribe] *)

Definition UPNP_DISCOVERY_DELAY : Z := 10.

(** The effects of the construction, in the order they happen. *)
Inductive SetupEvent : Type :=
| SetupLog (lvl : Level) (msg : string) (args : list LogArg)
| UpnpDiscover (delay : Z)
| UpnpSelectIgd
| UpnpAddPortMapping (eport : Z) (proto lanaddr : string) (iport : Z) (desc remote : string)
| Boto3Client (service : string)
| ServerBind (port : Z)
| RequestsGet (url : string)
| SnsSubscribe (topic protocol endpoint : string).

(** The answers of the collaborators of the construction, indexed like
    those of [Env].  [None] or [false] is a call that raises;
    [server_bind requested] is the port the [HTTPServer] listens on. *)
Record SetupEnv : Type := {
  upnp_discover : nat → bool;
  upnp_selectigd : nat → bool;
  upnp_lanaddr : string;
  upnp_addportmapping : nat → option bool;
  boto3_client : nat → bool;
  server_bind : Z → nat → option Z;
  requests_get : nat → option string;
  sns_subscribe : nat → bool
}.

(** Construction runs before there is an instance: its state is the list
    of the effects so far. *)
Definition Setup (A : Type) : Type := list SetupEvent → outcome A * list SetupEvent.

Definition Setup_ret {A} (a : A) : Setup A := λ t, (Return a, t).

Definition Setup_bind {A B} (f : A → Setup B) (m : Setup A) : Setup B :=
  λ t, match m t with
       | (Return a, t') => f a t'
       | (Raise e, t') => (Raise e, t')
       | (Replaced, t') => (Replaced, t')
       end.

#[export] Instance Setup_mret : MRet Setup := @Setup_ret.
#[export] Instance Setup_mbind : MBind Setup := @Setup_bind.

Definition setup_raise {A} (e : exn) : Setup A := λ t, (Raise e, t).

Definition setup_try {A} (body : Setup A) (handler : exn → Setup A) : Setup A :=
  λ t, match body t with
       | (Raise e, t') => handler e t'
       | r => r
       end.

Definition setup_emit (ev : SetupEvent) : Setup unit := λ t, (Return tt, t ++ [ev]).

Definition setup_ask {A} (f : nat → A) : Setup A := λ t, (Return (f (length t)), t).

Definition setup_log (lvl : Level) (msg : string) (args : list LogArg) : Setup unit :=
  setup_emit (SetupLog lvl msg args).

(** Truth value of an argument that is a string or [None]. *)
Definition given (v : option string) : bool :=
  match v with
  | Some s => negb (String.eqb s "")
  | None => false
  end.

(** ['http://{}:{}'.format(ip, port)]. *)
Definition format_endpoint (ip : string) (port : Z) : string :=
  "http://" +:+ ip +:+ ":" +:+ pretty port.

Section Construction.

Variable E : Env.
Variable SE : SetupEnv.

(** A collaborator call that returns nothing of interest or raises. *)
Definition setup_call (ev : SetupEvent) (answer : nat → bool) (what : string) : Setup unit :=
  ok ← setup_ask answer;
  setup_emit ev;;
  if ok : bool then mret tt else setup_raise (Exception what).

Definition initialize_upnp : Setup unit :=
  setup_call (UpnpDiscover UPNP_DISCOVERY_DELAY) (upnp_discover SE) "discover";;
  setup_call UpnpSelectIgd (upnp_selectigd SE) "selectigd".

(** [get('https://api.ipify.org').text]. *)
Definition get_external_ip : Setup string :=
  r ← setup_ask (requests_get SE);
  setup_emit (RequestsGet "https://api.ipify.org");;
  match r with
  | Some text => mret text
  | None => setup_raise (Exception "requests")
  end.

(** [self.upnp.addportmapping(...)]: the value it returns is not used. *)
Definition addportmapping (port : Z) : Setup unit :=
  r ← setup_ask (upnp_addportmapping SE);
  setup_emit (UpnpAddPortMapping port "TCP" (upnp_lanaddr SE) port "" "");;
  match r with
  | Some _ => mret tt
  | None => setup_raise (Exception "miniupnpc")
  end.

(** [subscribe], on the instance [__init__] has filled in. *)
Definition subscribe (s : Subscriber) : Setup unit :=
  (if manual_port_forward s then mret tt
   else
     setup_try
       (addportmapping (server_port s))
       (λ _,
          setup_log ERROR "Failed to automatically forward port." [];;
          setup_log ERROR
            "Please set port as an environment variable and forward manually." [];;
          setup_raise (SystemExit 1)));;
  setup_try
    (setup_log INFO "Subscribing for Alexa commands..." [];;
     setup_call (SnsSubscribe (topic_arn s) "http" (endpoint_url s))
       (sns_subscribe SE) "Subscribe")
    (λ _,
       setup_log EXCEPTION "SNS Topic ({}) is invalid. Please check in AWS."
         [AStr (topic_arn s)];;
       setup_raise (SystemExit 1)).

(** [HTTPServer(('', int(port) if port else 0), SNSRequestHandler)] and
    its [server_port]. *)
Definition http_server (port : option string) : Setup Z :=
  requested ← match port with
              | Some p =>
                  if given port
                  then match py_int E p with
                       | Some n => mret n
                       | None => setup_raise ValueError
                       end
                  else mret 0%Z
              | None => mret 0%Z
              end;
  r ← setup_ask (server_bind SE requested);
  setup_emit (ServerBind requested);;
  match r with
  | Some bound => mret bound
  | None => setup_raise (Exception "OSError")
  end.

(** [Subscriber.__init__]: the instance it leaves when it returns. *)
Definition init (registry : gmap string Skill) (ip port : option string)
    (topic : string) : Setup Subscriber :=
  (if given port then mret tt
   else
     setup_try initialize_upnp
       (λ _,
          setup_log EXCEPTION
            "Failed to configure UPnP. Please map port manually and pass PORT environment variable."
            [];;
          setup_raise (SystemExit 1)));;
  setup_call (Boto3Client "sns") (boto3_client SE) "boto3";;
  bound ← http_server port;
  address ← match ip with
            | Some a => if given ip then mret a else get_external_ip
            | None => get_external_ip
            end;
  let s := {| last_ping_sent := None;
              last_ping_received := None;
              ping_thread_started := false;
              stopped := false;
              manual_port_forward := given port;
              skills := registry;
              topic_arn := topic;
              endpoint_url := format_endpoint address bound;
              server_port := bound |} in
  setup_log INFO "Listening on {}" [AStr (endpoint_url s)];;
  subscribe s;;
  mret s.

End Construction.

(** ** More properties of a run *)

(** The field [f] of the instance is left as it was. *)
Definition keeps {A} (f : Subscriber → A) : relation World :=
  λ w w', f (self w') = f (self w).

Definition is_upnp (ev : Event) : Prop :=
  match ev with
  | UpnpDeletePortMapping _ _ => True
  | _ => False
  end.

Definition is_confirm_call (ev : Event) : Prop :=
  match ev with
  | SnsConfirmSubscription _ _ => True
  | _ => False
  end.

Definition is_unsubscribe_call (ev : Event) : Prop :=
  match ev with
  | SnsUnsubscribe _ => True
  | _ => False
  end.

Definition is_answer (ev : Event) : bool :=
  match ev with
  | SendResponse 200 => true
  | _ => false
  end.

(** How many requests were answered with status 200. *)
Definition answers (evs : list Event) : nat :=
  length (filter (λ ev, is_answer ev = true) evs).

(** A subscription of this topic at this endpoint. *)
Definition matches (topic url : string) (sub : Subscription) : Prop :=
  TopicArn sub = topic ∧ Endpoint sub = url.

Definition is_setup_upnp (ev : SetupEvent) : Prop :=
  match ev with
  | UpnpDiscover _ | UpnpSelectIgd | UpnpAddPortMapping _ _ _ _ _ _ => True
  | _ => False
  end.


(** An environment of the construction in which everything succeeds; the
    server gets the port it asks for, or 49152 when it asks for any. *)
Definition calm_setup : SetupEnv :=
  {| upnp_discover := λ _, true;
     upnp_selectigd := λ _, true;
     upnp_lanaddr := "192.168.1.20";
     upnp_addportmapping := λ _, Some true;
     boto3_client := λ _, true;
     server_bind := λ requested _, Some (if (requested =? 0)%Z then 49152%Z else requested);
     requests_get := λ _, Some "203.0.113.7";
     sns_subscribe := λ _, true |}.

(** An environment whose [int] reads the one port number used below. *)
Definition port_env : Env :=
  {| clock := λ _, 0%Z;
     upnp_deleteportmapping := λ _, Some true;
     sns_list_subscriptions_by_topic := λ _, Some [];
     sns_publish := λ _, true;
     sns_confirm_subscription := λ _, true;
     sns_unsubscribe := λ _, true;
     json_loads := λ _, None;
     py_int := λ s, if String.eqb s "8080" then Some 8080%Z else None |}.

(** A skill that returns and one that raises. *)
Definition quiet_skill : Skill := {| handle_command := λ _ _ _ _, None |}.

Definition broken_skill : Skill :=
  {| handle_command := λ _ _ _ _, Some (SystemExit 3) |}.

(** A fresh instance with the skill [lights] registered. *)
Definition lights_world : World :=
  {| self := {| last_ping_sent := None;
                last_ping_received := None;
                ping_thread_started := false;
                stopped := false;
                manual_port_forward := true;
                skills := {[ "lights" := quiet_skill ]};
                topic_arn := "arn:aws:sns:eu-west-1:1:alexa";
                endpoint_url := "http://203.0.113.7:8080";
                server_port := 8080 |};
     trace := [] |}.

Definition lights_items : list (string * json) :=
  [("command", JString "turnOn"); ("handler_name", JString "lights");
   ("room", JString "den"); ("data", JObject [])].

(** What the webhook and what it calls may do: log, read the clock, read the
    request, answer it, confirm the subscription, start the heartbeat
    thread, look up and call a skill. *)
Definition is_listener_event (ev : Event) : Prop :=
  match ev with
  | Log _ _ _ | ClockRead | SnsConfirmSubscription _ _ | ThreadStart
  | SendResponse _ | SendHeader _ _ | EndHeaders | RfileRead _
  | SkillsGet _ | HandleCommand _ _ _ => True
  | _ => False
  end.

(** An environment whose [int] and [json.loads] read the two requests
    below: an SNS notification carrying the ping, and an envelope of a type
    the webhook does not know. *)
Definition webhook_env : Env :=
  {| clock := λ _, 5000000000%Z;
     upnp_deleteportmapping := λ _, Some true;
     sns_list_subscriptions_by_topic := λ _, Some [];
     sns_publish := λ _, true;
     sns_confirm_subscription := λ _, true;
     sns_unsubscribe := λ _, true;
     json_loads := λ s,
       if String.eqb s "notification" then
         Some (JObject [("Type", JString "Notification"); ("Message", JString "ping-message")])
       else if String.eqb s "ping-message" then
         Some (JObject [("command", JString "ping")])
       else if String.eqb s "unsubscribed" then
         Some (JObject [("Type", JString "UnsubscribeConfirmation")])
       else if String.eqb s "confirmation" then
         Some (JObject [("Type", JString "SubscriptionConfirmation"); ("Token", JString "token-1")])
       else None;
     py_int := λ s,
       if String.eqb s "12" then Some 12%Z else None |}.

Definition notification_request : Request :=
  {| content_length := Some "12";
     x_amz_sns_topic_arn := Some "arn:aws:sns:eu-west-1:1:alexa";
     rfile := "notification" |}.


Definition confirmation_request : Request :=
  {| content_length := Some "12";
     x_amz_sns_topic_arn := Some "arn:aws:sns:eu-west-1:1:alexa";
     rfile := "confirmation" |}.

(** A request without [Content-Length]. *)
Definition headless_request : Request :=
  {| content_length := None;
     x_amz_sns_topic_arn := None;
     rfile := "notification" |}.

(** Two subscriptions of the topic: somebody else's and the one of the
    instance of [new_world]. *)
Definition foreign_subscription : Subscription :=
  {| SubscriptionArn := "arn:aws:sns:eu-west-1:1:alexa:other";
     Endpoint := "http://198.51.100.9:9000";
     TopicArn := "arn:aws:sns:eu-west-1:1:alexa" |}.

Definition own_subscription : Subscription :=
  {| SubscriptionArn := "arn:aws:sns:eu-west-1:1:alexa:own";
     Endpoint := "http://203.0.113.7:8080";
     TopicArn := "arn:aws:sns:eu-west-1:1:alexa" |}.

(** [calm_env] with both subscriptions on the topic. *)
Definition listed_env : Env :=
  {| clock := λ _, 5000000000%Z;
     upnp_deleteportmapping := λ _, Some true;
     sns_list_subscriptions_by_topic := λ _, Some [foreign_subscription; own_subscription];
     sns_publish := λ _, true;
     sns_confirm_subscription := λ _, true;
     sns_unsubscribe := λ _, true;
     json_loads := λ _, None;
     py_int := λ _, None |}.

(** A ping went out at second 4800, two hundred seconds before the clock of
    [calm_env]. *)
Definition waiting_world : World :=
  {| self := set_last_ping_sent (Some 4800000000%Z) (new_subscriber true);
     trace := [] |}.

(** An SNS that cannot list the subscriptions of the topic. *)
Definition listing_down_env : Env :=
  {| clock := λ _, 5000000000%Z;
     upnp_deleteportmapping := λ _, Some true;
     sns_list_subscriptions_by_topic := λ _, None;
     sns_publish := λ _, true;
     sns_confirm_subscription := λ _, true;
     sns_unsubscribe := λ _, true;
     json_loads := λ _, None;
     py_int := λ _, None |}.

(** The instance of [new_world] once its subscription is confirmed. *)
Definition confirmed_world : World :=
  {| self := set_ping_thread_started true (new_subscriber true); trace := [] |}.

(** A computation the accept loop can live with: it only adds to the
    trace, it never replaces the process, and when it raises, the exception
    derives from [Exception] or is the [SystemExit 1] of a confirmation it
    has tried. *)
Definition listener_safe {A} (m : M A) : Prop :=
  ∀ w, ∃ evs,
    trace (world_after m w) = trace w ++ evs
    ∧ match ending m w with
      | Return _ => True
      | Raise e =>
          is_Exception e = true
          ∨ (e = SystemExit 1 ∧ Exists is_confirm_call evs)
      | Replaced => False
      end.

(** A network without a UPnP gateway: [selectigd] raises. *)
Definition no_gateway_setup : SetupEnv :=
  {| upnp_discover := λ _, true;
     upnp_selectigd := λ _, false;
     upnp_lanaddr := "192.168.1.20";
     upnp_addportmapping := λ _, Some true;
     boto3_client := λ _, true;
     server_bind := λ requested _, Some (if (requested =? 0)%Z then 49152%Z else requested);
     requests_get := λ _, Some "203.0.113.7";
     sns_subscribe := λ _, true |}.

(** A router that answers [False] to the mapping request. *)
Definition refusing_setup : SetupEnv :=
  {| upnp_discover := λ _, true;
     upnp_selectigd := λ _, true;
     upnp_lanaddr := "192.168.1.20";
     upnp_addportmapping := λ _, Some false;
     boto3_client := λ _, true;
     server_bind := λ requested _, Some (if (requested =? 0)%Z then 49152%Z else requested);
     requests_get := λ _, Some "203.0.113.7";
     sns_subscribe := λ _, true |}.

(** The instance [__init__] builds on its own: port 49152 from the server,
    address from the lookup. *)
Definition automatic_subscriber : Subscriber :=
  {| last_ping_sent := None;
     last_ping_received := None;
     ping_thread_started := false;
     stopped := false;
     manual_port_forward := false;
     skills := ∅;
     topic_arn := "arn:aws:sns:eu-west-1:1:alexa";
     endpoint_url := "http://203.0.113.7:49152";
     server_port := 49152 |}.

(** * Reasoning about runs *)

Section Steps.

Context (R : relation World) `{!PreOrder R}.

Lemma steps_ret {A} (a : A) : steps R (mret a).
Proof. intros w. unfold world_after. simpl. reflexivity. Qed.

Lemma steps_raise {A} (e : exn) : steps R (@raise A e).
Proof. intros w. unfold world_after. simpl. reflexivity. Qed.

Lemma steps_gets {A} (f : Subscriber → A) : steps R (gets f).
Proof. intros w. unfold world_after. simpl. reflexivity. Qed.

Lemma steps_ask {A} (f : nat → A) : steps R (ask f).
Proof. intros w. unfold world_after. simpl. reflexivity. Qed.

Lemma steps_bind {A B} (m : M A) (f : A → M B) :
  steps R m → (∀ a, steps R (f a)) → steps R (m ≫= f).
Proof.
  intros Hm Hf w. specialize (Hm w).
  unfold world_after, mbind, M_mbind, M_bind in *.
  destruct (m w) as [[a | e |] w1]; simpl in *; try assumption.
  transitivity w1; [assumption | apply Hf].
Qed.

Lemma steps_try {A} (body : M A) (handler : exn → M A) :
  steps R body → (∀ e, steps R (handler e)) → steps R (try_except body handler).
Proof.
  intros Hb Hh w. specialize (Hb w).
  unfold world_after, try_except in *.
  destruct (body w) as [[a | e |] w1]; simpl in *; try assumption.
  transitivity w1; [assumption | apply Hh].
Qed.

(** Nothing runs after a computation that never returns. *)
Lemma steps_cut {A B} (m : M A) (f : A → M B) :
  never_returns m → steps R m → steps R (m ≫= f).
Proof.
  intros Hn Hm w. specialize (Hm w). specialize (Hn w).
  unfold world_after, ending, mbind, M_mbind, M_bind in *.
  destruct (m w) as [[a | e |] w1]; simpl in *; try assumption.
  exfalso. apply (Hn a). reflexivity.
Qed.

End Steps.

#[export] Instance extends_with_preorder (P : Event → Prop) : PreOrder (extends_with P).
Proof.
  split.
  - intros w. exists []. split; [by rewrite app_nil_r | constructor].
  - intros w1 w2 w3 (evs1 & H1 & F1) (evs2 & H2 & F2).
    exists (evs1 ++ evs2). split.
    + rewrite H2, H1. by rewrite <- app_assoc.
    + apply Forall_app. by split.
Qed.

#[export] Instance stays_stopped_preorder : PreOrder stays_stopped.
Proof.
  split.
  - intros w H. exact H.
  - intros w1 w2 w3 H12 H23 H. apply H23, H12, H.
Qed.

Lemma extends_emit (P : Event → Prop) (ev : Event) :
  P ev → steps (extends_with P) (emit ev).
Proof.
  intros HP w. exists [ev]. split; [reflexivity | by constructor].
Qed.

Lemma extends_modify (P : Event → Prop) (f : Subscriber → Subscriber) :
  steps (extends_with P) (modify f).
Proof.
  intros w. exists []. split; [simpl; by rewrite app_nil_r | constructor].
Qed.

Lemma extends_restart (P : Event → Prop) {A} :
  P Execl → steps (extends_with P) (@restart A).
Proof.
  intros HP w. exists [Execl]. split; [reflexivity | by constructor].
Qed.

Lemma stopped_emit (ev : Event) : steps stays_stopped (emit ev).
Proof. intros w H. exact H. Qed.

Lemma stopped_restart {A} : steps stays_stopped (@restart A).
Proof. intros w H. exact H. Qed.

Lemma stopped_modify (f : Subscriber → Subscriber) :
  (∀ s, stopped (f s) = stopped s) → steps stays_stopped (modify f).
Proof. intros Hf w H. unfold world_after. simpl. by rewrite Hf. Qed.

Lemma stopped_set_stopped : steps stays_stopped (modify (set_stopped true)).
Proof. intros w H. reflexivity. Qed.

(** Decomposes a goal [steps R m] along the structure of [m]; what is left
    are the events the relation has to accept. *)
Ltac steps_tac :=
  repeat
    match goal with
    | |- steps _ (mret _) => apply steps_ret; tc_solve
    | |- steps _ (raise _) => apply steps_raise; tc_solve
    | |- steps _ (sys_exit _) => apply steps_raise; tc_solve
    | |- steps _ (gets _) => apply steps_gets; tc_solve
    | |- steps _ (ask _) => apply steps_ask; tc_solve
    | |- steps _ (_ ≫= _) => apply steps_bind; [ tc_solve | | intros ? ]
    | |- steps _ (try_except _ _) => apply steps_try; [ tc_solve | | intros ? ]
    | |- steps (extends_with _) (modify _) => apply extends_modify
    | |- steps (extends_with _) (emit _) => apply extends_emit
    | |- steps (extends_with _) restart => apply extends_restart
    | |- steps stays_stopped (emit _) => apply stopped_emit
    | |- steps stays_stopped restart => apply stopped_restart
    | |- steps stays_stopped (modify (set_stopped true)) => apply stopped_set_stopped
    | |- steps stays_stopped (modify _) => apply stopped_modify; reflexivity
    | |- steps _ (if ?b then _ else _) => destruct b
    | |- steps _ (match ?x with _ => _ end) => destruct x
    | H : steps ?R ?m |- steps ?R ?m => exact H
    | H : ∀ _, _ |- steps _ _ => solve [apply H]
    end.

(** ** What the methods emit *)

Section Within.

Variable E : Env.
Variable P : Event → Prop.

(** [P] accepts the events of the collaborators the methods talk to; it may
    still exclude the teardown of [shutdown], the HTTP response and
    [Execl]. *)
Hypothesis P_log : ∀ lvl msg args, P (Log lvl msg args).
Hypothesis P_clock : P ClockRead.
Hypothesis P_list : ∀ topic, P (SnsListSubscriptionsByTopic topic).
Hypothesis P_confirm : ∀ topic token, P (SnsConfirmSubscription topic token).
Hypothesis P_unsubscribe : ∀ arn, P (SnsUnsubscribe arn).
Hypothesis P_upnp : ∀ port proto, P (UpnpDeletePortMapping port proto).
Hypothesis P_start : P ThreadStart.
Hypothesis P_read : ∀ n, P (RfileRead n).
Hypothesis P_skills : ∀ key, P (SkillsGet key).

Lemma unsubscribe_within : steps (extends_with P) (unsubscribe E).
Proof.
  unfold unsubscribe, deleteportmapping, list_subscriptions_by_topic,
    sns_client_unsubscribe, log.
  steps_tac; auto.
Qed.

Lemma confirm_subscription_within topic token :
  steps (extends_with P) (confirm_subscription E topic token).
Proof.
  unfold confirm_subscription, sns_client_confirm_subscription,
    ping_thread_start, log.
  steps_tac; auto.
Qed.

Lemma subscript_within obj key : steps (extends_with P) (subscript obj key).
Proof. unfold subscript. steps_tac. Qed.

Lemma loads_value_within v : steps (extends_with P) (loads_value E v).
Proof. unfold loads_value, loads. steps_tac. Qed.

Hypothesis P_handle : ∀ room command data, P (HandleCommand room command data).

Lemma dispatch_notification_within notification :
  steps (extends_with P) (dispatch_notification E notification).
Proof.
  pose proof subscript_within.
  unfold dispatch_notification, dispatch_body, skills_get,
    call_handle_command, datetime_now, log.
  steps_tac; auto.
Qed.

Lemma process_body_within req : steps (extends_with P) (process_body E req).
Proof.
  pose proof subscript_within.
  pose proof loads_value_within.
  pose proof dispatch_notification_within.
  pose proof confirm_subscription_within.
  unfold process_body, int_of_header, rfile_read, loads, log.
  steps_tac; auto.
Qed.

End Within.

(** ** [stopped] is never reset *)

Section Stopped.

Variable E : Env.

Lemma unsubscribe_stopped : steps stays_stopped (unsubscribe E).
Proof.
  unfold unsubscribe, deleteportmapping, list_subscriptions_by_topic,
    sns_client_unsubscribe, log.
  steps_tac.
Qed.

Lemma shutdown_stopped : steps stays_stopped (shutdown E).
Proof.
  pose proof unsubscribe_stopped.
  unfold shutdown, ping_thread_join, log.
  steps_tac.
Qed.

Lemma confirm_subscription_stopped topic token :
  steps stays_stopped (confirm_subscription E topic token).
Proof.
  unfold confirm_subscription, sns_client_confirm_subscription,
    ping_thread_start, log.
  steps_tac.
Qed.

Lemma dispatch_notification_stopped notification :
  steps stays_stopped (dispatch_notification E notification).
Proof.
  unfold dispatch_notification, dispatch_body, skills_get, subscript,
    call_handle_command, datetime_now, log.
  steps_tac.
Qed.

Lemma do_POST_stopped req : steps stays_stopped (do_POST E req).
Proof.
  pose proof dispatch_notification_stopped.
  pose proof confirm_subscription_stopped.
  unfold do_POST, process_body, int_of_header, rfile_read, loads_value, loads,
    subscript, log.
  steps_tac.
Qed.

Lemma ping_step_stopped : steps stays_stopped (ping_step E).
Proof.
  unfold ping_step, ping_cycle, seconds_since_exceed, datetime_now, publish,
    list_subscriptions_by_topic, time_sleep, log.
  steps_tac.
Qed.

Lemma ping_stopped fuel : steps stays_stopped (ping E fuel).
Proof.
  pose proof ping_step_stopped.
  induction fuel as [| fuel IH]; simpl; steps_tac.
Qed.

End Stopped.

(** ** Computations that do not return *)

Lemma never_returns_raise {A} (e : exn) : never_returns (@raise A e).
Proof. intros w a. discriminate. Qed.

Lemma never_returns_bind {A B} (m : M A) (f : A → M B) :
  (∀ a, never_returns (f a)) → never_returns (m ≫= f).
Proof.
  intros Hf w b. unfold ending, mbind, M_mbind, M_bind.
  destruct (m w) as [[a | e |] w1]; simpl; try discriminate.
  apply (Hf a w1 b).
Qed.

(** Every path through [unsubscribe] ends in a [raise] or in
    [sys.exit(0)]. *)
Lemma unsubscribe_never_returns (E : Env) : never_returns (unsubscribe E).
Proof.
  unfold unsubscribe.
  repeat (apply never_returns_bind; intros ?).
  apply never_returns_raise.
Qed.

Lemma ending_cut {A B} (m : M A) (f : A → M B) (w : World) :
  never_returns m → ∀ b, ending (m ≫= f) w ≠ Return b.
Proof.
  intros Hn b. specialize (Hn w).
  unfold ending, mbind, M_mbind, M_bind in *.
  destruct (m w) as [[a | e |] w1]; simpl in *; try discriminate.
  exfalso. apply (Hn a). reflexivity.
Qed.

Lemma world_after_cut {A B} (m : M A) (f : A → M B) (w : World) :
  never_returns m → world_after (m ≫= f) w = world_after m w.
Proof.
  intros Hn. specialize (Hn w).
  unfold world_after, ending, mbind, M_mbind, M_bind in *.
  destruct (m w) as [[a | e |] w1]; simpl in *; try reflexivity.
  exfalso. apply (Hn a). reflexivity.
Qed.

Lemma emitted_app (w w' : World) (evs : list Event) :
  trace w' = trace w ++ evs → emitted w w' = evs.
Proof. intros H. unfold emitted. rewrite H. apply drop_app_length. Qed.

(** The instance when [shutdown] calls [unsubscribe]. *)
Lemma shutdown_running (E : Env) (w : World) :
  stopped (self w) = false →
  shutdown E w =
  (unsubscribe E;; emit ServerShutdown;; ping_thread_join 5)
    {| self := set_stopped true (self w);
       trace := trace w ++ [Log INFO "Shutting down HTTP listener" []] |}.
Proof.
  intros H. unfold shutdown, gets, mbind at 1, M_mbind, M_bind at 1.
  rewrite H. reflexivity.
Qed.

(** * The claims *)

(** C4 (fails on the code): from a non-stopped state [shutdown] sets the flag
    and calls [unsubscribe], but [unsubscribe] always leaves by an exception
    ([SystemExit] or an error), so [shutdown] never returns and neither
    [self.server.shutdown()] nor [self.ping_thread.join(5)] is executed. *)
Theorem shutdown_never_reaches_teardown (E : Env) (w : World) :
  stopped (self w) = false →
  (∀ a, ending (shutdown E) w ≠ Return a) ∧
  Forall (λ ev, ¬ is_teardown ev) (emitted w (world_after (shutdown E) w)).
Proof.
  intros Hrun. pose proof (unsubscribe_never_returns E) as Hn.
  unfold ending, world_after. rewrite (shutdown_running E w Hrun).
  set (w1 := {| self := set_stopped true (self w); trace := _ |}).
  split.
  - intros a. apply (ending_cut _ _ w1 Hn).
  - assert (Hs : steps (extends_with (λ ev, ¬ is_teardown ev)) (unsubscribe E))
      by (apply unsubscribe_within; intros; simpl; tauto).
    fold (world_after (unsubscribe E;; emit ServerShutdown;; ping_thread_join 5) w1).
    rewrite (world_after_cut _ _ w1 Hn).
    destruct (Hs w1) as (evs & Htr & Hall).
    rewrite (emitted_app w _ (Log INFO "Shutting down HTTP listener" [] :: evs)).
    + constructor; [simpl; tauto | exact Hall].
    + rewrite Htr. subst w1. simpl. by rewrite <- app_assoc.
Qed.

Lemma shutdown_never_reaches_teardown_witness :
  (∀ a, ending (shutdown calm_env) (new_world true) ≠ Return a) ∧
  Forall (λ ev, ¬ is_teardown ev)
    (emitted (new_world true) (world_after (shutdown calm_env) (new_world true))).
Proof. apply (shutdown_never_reaches_teardown calm_env (new_world true)). reflexivity. Defined.

(** C8: whatever the request and whatever becomes of its processing,
    [do_POST] first sends status 200, the header [content-type: text/html]
    and the end of the headers; everything else it does, reading the body
    included, comes after, and nothing more is ever written to the
    response. *)
Theorem do_POST_answers_200_first (E : Env) (req : Request) (w : World) :
  ∃ evs,
    emitted w (world_after (do_POST E req) w) =
      [SendResponse 200; SendHeader "content-type" "text/html"; EndHeaders] ++ evs
    ∧ Forall (λ ev, ¬ is_response ev) evs.
Proof.
  assert (Hs : steps (extends_with (λ ev, ¬ is_response ev)) (process_body E req))
    by (apply process_body_within; intros; simpl; tauto).
  set (w3 := {| self := self w;
                trace := ((trace w ++ [SendResponse 200])
                            ++ [SendHeader "content-type" "text/html"])
                            ++ [EndHeaders] |}).
  destruct (Hs w3) as (evs & Htr & Hall).
  exists evs. split; [| exact Hall].
  apply emitted_app.
  change (world_after (do_POST E req) w) with (world_after (process_body E req) w3).
  rewrite Htr. subst w3. simpl. by rewrite <- !app_assoc.
Qed.

Lemma shutdown_stopped_noop (E : Env) (w : World) :
  stopped (self w) = true → shutdown E w = (Return tt, w).
Proof.
  intros H. unfold shutdown, gets, mbind, M_mbind, M_bind.
  rewrite H. reflexivity.
Qed.

Lemma repeat_call_noop (m : M unit) (w : World) :
  world_after m w = w → ∀ n, repeat_call m n w = w.
Proof.
  intros H n. induction n as [| n IH]; simpl; [reflexivity |].
  rewrite H. exact IH.
Qed.

(** C9: the first [shutdown] from a non-stopped state sets [stopped] and
    runs [unsubscribe] on the flagged instance, ending the way [unsubscribe]
    ends; a [shutdown] on a stopped instance returns at once and performs no
    effect, so any number of repeated calls leaves the world as the first one
    left it; and no method ever sets [stopped] back to false. *)
Theorem stop_flag_set_once (E : Env) (w : World) :
  let flagged := {| self := set_stopped true (self w);
                    trace := trace w ++ [Log INFO "Shutting down HTTP listener" []] |} in
  let w1 := world_after (shutdown E) w in
  (if stopped (self w)
   then shutdown E w = (Return tt, w)
   else w1 = world_after (unsubscribe E) flagged
        ∧ ending (shutdown E) w = ending (unsubscribe E) flagged)
  ∧ stopped (self w1) = true
  ∧ shutdown E w1 = (Return tt, w1)
  ∧ (∀ n, repeat_call (shutdown E) n w1 = w1)
  ∧ steps stays_stopped (shutdown E)
  ∧ steps stays_stopped (unsubscribe E)
  ∧ (∀ topic token, steps stays_stopped (confirm_subscription E topic token))
  ∧ (∀ notification, steps stays_stopped (dispatch_notification E notification))
  ∧ (∀ req, steps stays_stopped (do_POST E req))
  ∧ (∀ fuel, steps stays_stopped (ping E fuel)).
Proof.
  intros flagged w1.
  pose proof (unsubscribe_never_returns E) as Hn.
  assert (Hflag : stopped (self w1) = true).
  { subst w1. destruct (stopped (self w)) eqn:Hst.
    - unfold world_after. rewrite (shutdown_stopped_noop E w Hst). exact Hst.
    - unfold world_after. rewrite (shutdown_running E w Hst).
      fold flagged.
      fold (world_after (unsubscribe E;; emit ServerShutdown;; ping_thread_join 5) flagged).
      rewrite (world_after_cut _ _ flagged Hn).
      apply (unsubscribe_stopped E flagged). reflexivity. }
  assert (Hnoop : shutdown E w1 = (Return tt, w1))
    by (apply shutdown_stopped_noop, Hflag).
  repeat split.
  - destruct (stopped (self w)) eqn:Hst.
    + apply shutdown_stopped_noop, Hst.
    + subst w1. unfold world_after, ending.
      rewrite (shutdown_running E w Hst). fold flagged.
      specialize (Hn flagged). unfold ending in Hn.
      unfold mbind, M_mbind, M_bind.
      destruct (unsubscribe E flagged) as [[[] | e |] w2]; simpl in *;
        [exfalso; by apply (Hn tt) | done | done].
  - exact Hflag.
  - exact Hnoop.
  - apply repeat_call_noop. unfold world_after. by rewrite Hnoop.
  - apply shutdown_stopped.
  - apply unsubscribe_stopped.
  - apply confirm_subscription_stopped.
  - apply dispatch_notification_stopped.
  - apply do_POST_stopped.
  - apply ping_stopped.
Qed.

(** The handler of [dispatch_notification] logs and returns. *)
Lemma dispatch_notification_catches (E : Env) (notification : json) (w : World) :
  match dispatch_body E notification w with
  | (Return a, w1) => dispatch_notification E notification w = (Return a, w1)
  | (Raise e, w1) =>
      dispatch_notification E notification w =
      (Return tt, {| self := self w1;
                     trace := trace w1 ++ [Log EXCEPTION "Unexpected error handling message" []] |})
  | (Replaced, w1) => False
  end.
Proof.
  unfold dispatch_notification, try_except.
  destruct (dispatch_body E notification w) as [[a | e |] w1] eqn:Hb;
    try reflexivity.
  revert Hb.
  unfold dispatch_body, subscript, skills_get, call_handle_command,
    datetime_now, log, emit, modify, gets, ask, raise, mbind, mret, M_mbind,
    M_mret, M_bind, M_ret.
  repeat case_match; simplify_eq; try discriminate.
Qed.

(** C10: for every JSON value handed to it, every registry and every
    behaviour of the skills, [dispatch_notification] returns normally; when
    the body of its [try] raised, whatever the exception, the only thing
    that follows is the logging of the error. *)
Theorem dispatch_notification_total (E : Env) (notification : json) (w : World) :
  ending (dispatch_notification E notification) w = Return tt
  ∧ ∀ e w1,
      dispatch_body E notification w = (Raise e, w1) →
      world_after (dispatch_notification E notification) w =
      {| self := self w1;
         trace := trace w1 ++ [Log EXCEPTION "Unexpected error handling message" []] |}.
Proof.
  pose proof (dispatch_notification_catches E notification w) as H.
  unfold ending, world_after.
  destruct (dispatch_body E notification w) as [[[] | e |] w1]; try contradiction;
    rewrite H; split; try reflexivity; intros e' w' Heq; simplify_eq; reflexivity.
Qed.

Lemma dispatch_notification_total_witness :
  ending (dispatch_notification calm_env (JInt 7)) (new_world true) = Return tt
  ∧ world_after (dispatch_notification calm_env (JInt 7)) (new_world true) =
    {| self := new_subscriber true;
       trace := [Log EXCEPTION "Unexpected error handling message" []] |}.
Proof.
  destruct (dispatch_notification_total calm_env (JInt 7) (new_world true)) as [H1 H2].
  split; [exact H1 | apply (H2 TypeError (new_world true)); reflexivity].
Defined.



Lemma eq_str_true (v : json) (literal : string) :
  eq_str v literal = true → v = JString literal.
Proof.
  destruct v; simpl; try discriminate.
  intros H. apply String.eqb_eq in H. by subst.
Qed.

(** C7 (as stated, fails): a notification with [command] ['ping'] and a
    [handler_name] that is not in the registry is a heartbeat: it returns
    without logging any error. *)
Lemma heartbeat_with_unknown_handler_logs_nothing :
  skills (self (new_world true)) !! "ghost" = None
  ∧ dispatch_notification calm_env ghost_heartbeat (new_world true) =
    (Return tt,
     {| self := set_last_ping_received (Some 5000000000%Z) (new_subscriber true);
        trace := [Log INFO "Received ping." []; ClockRead] |})
  ∧ Forall (λ ev, ¬ is_error_log ev)
      (trace (world_after (dispatch_notification calm_env ghost_heartbeat)
                (new_world true))).
Proof.
  split; [reflexivity |]. split; [reflexivity |].
  unfold world_after. simpl. repeat constructor; simpl; tauto.
Qed.

(** C7 (amended): a notification that is not a heartbeat and whose
    [handler_name] is not in the registry makes [dispatch_notification]
    return normally with the instance unchanged; the error is logged by the
    dispatcher itself as its last effect, after the lookup in the registry
    when the notification has a [command], and no skill is called. *)
Theorem dispatch_unknown_handler
    (E : Env) (items : list (string * json)) (name : string) (w : World) :
  dict_get "command" items ≠ Some (JString "ping") →
  dict_get "handler_name" items = Some (JString name) →
  skills (self w) !! name = None →
  let w' := world_after (dispatch_notification E (JObject items)) w in
  ending (dispatch_notification E (JObject items)) w = Return tt
  ∧ self w' = self w
  ∧ emitted w w' =
      match dict_get "command" items with
      | Some _ =>
          [SkillsGet (JString name);
           Log EXCEPTION "Unexpected error handling message" []]
      | None => [Log EXCEPTION "Unexpected error handling message" []]
      end
  ∧ Forall (λ ev, ¬ is_handler_call ev) (emitted w w').
Proof.
  intros Hcmd Hname Hreg w'.
  assert (Hrun : dispatch_notification E (JObject items) w =
    (Return tt,
     {| self := self w;
        trace := trace w ++
          match dict_get "command" items with
          | Some _ =>
              [SkillsGet (JString name);
               Log EXCEPTION "Unexpected error handling message" []]
          | None => [Log EXCEPTION "Unexpected error handling message" []]
          end |})).
  { unfold dispatch_notification, try_except, dispatch_body, subscript.
    destruct (dict_get "command" items) as [c |] eqn:Hc; simpl; [| reflexivity].
    destruct (eq_str c "ping") eqn:Hping.
    - apply eq_str_true in Hping. subst c. by destruct Hcmd.
    - rewrite Hname.
      unfold skills_get, log, emit, gets, raise, mbind, mret, M_mbind, M_bind,
        M_mret, M_ret.
      rewrite Hping. cbn [self trace]. rewrite Hreg. cbn [self trace].
      by rewrite <- app_assoc. }
  subst w'. unfold ending, world_after. rewrite Hrun. cbn [fst snd self].
  erewrite emitted_app by reflexivity.
  repeat split.
  destruct (dict_get "command" items); repeat constructor; simpl; tauto.
Qed.

Lemma dispatch_unknown_handler_witness :
  ending (dispatch_notification calm_env ghost_notification) (new_world true) = Return tt
  ∧ self (world_after (dispatch_notification calm_env ghost_notification) (new_world true))
    = self (new_world true)
  ∧ emitted (new_world true)
      (world_after (dispatch_notification calm_env ghost_notification) (new_world true))
    = [SkillsGet (JString "ghost");
       Log EXCEPTION "Unexpected error handling message" []]
  ∧ Forall (λ ev, ¬ is_handler_call ev)
      (emitted (new_world true)
         (world_after (dispatch_notification calm_env ghost_notification) (new_world true))).
Proof.
  apply (dispatch_unknown_handler calm_env
           [("command", JString "play"); ("handler_name", JString "ghost");
            ("room", JString "den"); ("data", JObject [])]
           "ghost" (new_world true)).
  - simpl. discriminate.
  - reflexivity.
  - reflexivity.
Defined.

(** C3 (as stated, fails): on an instance that owns its port mapping, with a
    router that refuses to delete it, [unsubscribe] raises [RuntimeError]
    right after the attempt: the subscriptions are not listed, nothing is
    removed and there is no [sys.exit(0)]. *)
Lemma failed_release_aborts_unsubscribe :
  unsubscribe stuck_router_env (new_world false) =
    (Raise (RuntimeError "Failed to remove port forward for {}."),
     {| self := new_subscriber false;
        trace := [UpnpDeletePortMapping 8080 "TCP"] |}).
Proof. reflexivity. Qed.

(** C3 (amended): when the instance owns its port mapping and the release
    does not succeed, [unsubscribe] ends with an exception that is not
    [SystemExit]: [RuntimeError] when [deleteportmapping] answers false.
    Its only effect is the attempted release. *)
Theorem unsubscribe_release_failure (E : Env) (w : World) :
  manual_port_forward (self w) = false →
  upnp_deleteportmapping E (tick w) ≠ Some true →
  ∃ e,
    unsubscribe E w =
      (Raise e,
       {| self := self w;
          trace := trace w ++ [UpnpDeletePortMapping (server_port (self w)) "TCP"] |})
    ∧ (∀ code, e ≠ SystemExit code)
    ∧ (upnp_deleteportmapping E (tick w) = Some false →
       e = RuntimeError "Failed to remove port forward for {}.").
Proof.
  intros Hown Hfail.
  unfold unsubscribe, deleteportmapping, list_subscriptions_by_topic, log,
    gets, ask, emit, sys_exit, raise, mbind, mret, M_mbind, M_bind, M_mret, M_ret.
  rewrite Hown.
  destruct (upnp_deleteportmapping E (tick w)) as [[|] |] eqn:Hr.
  - by destruct Hfail.
  - exists (RuntimeError "Failed to remove port forward for {}.").
    repeat split. intros code. discriminate.
  - exists (Exception "miniupnpc").
    repeat split; [intros code | ]; discriminate.
Qed.

Lemma unsubscribe_release_failure_witness :
  ∃ e,
    unsubscribe stuck_router_env (new_world false) =
      (Raise e,
       {| self := self (new_world false);
          trace := trace (new_world false) ++
                   [UpnpDeletePortMapping (server_port (self (new_world false))) "TCP"] |})
    ∧ (∀ code, e ≠ SystemExit code)
    ∧ (upnp_deleteportmapping stuck_router_env (tick (new_world false)) = Some false →
       e = RuntimeError "Failed to remove port forward for {}.").
Proof.
  apply (unsubscribe_release_failure stuck_router_env (new_world false)).
  - reflexivity.
  - simpl. discriminate.
Defined.



(** The first valid confirmation: the thread is started. *)
Lemma confirm_subscription_first (E : Env) topic token (w : World) :
  ping_thread_started (self w) = false →
  sns_confirm_subscription E (tick w) = true →
  confirm_subscription E topic token w =
    (Return tt,
     {| self := set_ping_thread_started true (self w);
        trace := trace w ++ [SnsConfirmSubscription topic token;
                             Log INFO "Subscribed." []; ThreadStart] |}).
Proof.
  intros Hnew Hok.
  unfold confirm_subscription, try_except, sns_client_confirm_subscription,
    ping_thread_start, log, gets, ask, emit, modify, sys_exit, raise, mbind, mret,
    M_mbind, M_bind, M_mret, M_ret.
  rewrite Hok. cbn [self trace]. rewrite Hnew. cbn [self trace].
  by rewrite <- !app_assoc.
Qed.

(** A valid confirmation that finds the thread started: [start()] raises,
    the handler logs and exits. *)
Lemma confirm_subscription_again (E : Env) topic token (w : World) :
  ping_thread_started (self w) = true →
  sns_confirm_subscription E (tick w) = true →
  confirm_subscription E topic token w =
    (Raise (SystemExit 1),
     {| self := self w;
        trace := trace w ++
          [SnsConfirmSubscription topic token; Log INFO "Subscribed." [];
           Log EXCEPTION "Failed to confirm subscription. Please check in AWS." []] |}).
Proof.
  intros Hold Hok.
  unfold confirm_subscription, try_except, sns_client_confirm_subscription,
    ping_thread_start, log, gets, ask, emit, modify, sys_exit, raise, mbind, mret,
    M_mbind, M_bind, M_mret, M_ret.
  rewrite Hok. cbn [self trace]. rewrite Hold. cbn [self trace].
  by rewrite <- !app_assoc.
Qed.

Lemma thread_starts_app (evs1 evs2 : list Event) :
  thread_starts (evs1 ++ evs2) = thread_starts evs1 + thread_starts evs2.
Proof. unfold thread_starts. by rewrite filter_app, length_app. Qed.

Lemma deliver_confirmations_started (E : Env) cs (w : World) :
  ping_thread_started (self w) = true →
  (∀ k, sns_confirm_subscription E k = true) →
  ∃ evs,
    trace (world_after (deliver_confirmations E cs) w) = trace w ++ evs
    ∧ thread_starts evs = 0
    ∧ ping_thread_started (self (world_after (deliver_confirmations E cs) w)) = true.
Proof.
  intros Hold Hok. destruct cs as [| [topic token] cs].
  - exists []. unfold world_after. simpl.
    split; [by rewrite app_nil_r |]. split; [reflexivity | exact Hold].
  - unfold world_after. simpl. unfold mbind, M_mbind, M_bind.
    rewrite (confirm_subscription_again E topic token w Hold (Hok _)).
    cbn [fst snd self trace]. eexists. split; [reflexivity |].
    split; [reflexivity | exact Hold].
Qed.

(** C2 (as stated, fails): the same valid confirmation delivered twice, with
    an SNS that accepts it both times: the second [ping_thread.start()]
    raises, the bare [except] takes it for a failed confirmation and the
    process is terminated with status 1. *)
Lemma duplicate_confirmation_exits :
  ending (deliver_confirmations calm_env [some_confirmation; some_confirmation])
    (new_world true) = Raise (SystemExit 1)
  ∧ trace (world_after
             (deliver_confirmations calm_env [some_confirmation; some_confirmation])
             (new_world true)) =
    [SnsConfirmSubscription (Some "arn:aws:sns:eu-west-1:1:alexa") (JString "token-1");
     Log INFO "Subscribed." [];
     ThreadStart;
     SnsConfirmSubscription (Some "arn:aws:sns:eu-west-1:1:alexa") (JString "token-1");
     Log INFO "Subscribed." [];
     Log EXCEPTION "Failed to confirm subscription. Please check in AWS." []].
Proof. split; reflexivity. Qed.

(** C2 (amended): for every sequence of valid confirmations delivered to an
    instance whose heartbeat thread has not been started, the first delivery
    returns normally and starts the thread, and over the whole sequence the
    thread is started exactly once, however often the confirmation is
    repeated. *)
Theorem confirmations_start_thread_once
    (E : Env) (c : option string * json) (cs : list (option string * json))
    (w : World) :
  ping_thread_started (self w) = false →
  (∀ k, sns_confirm_subscription E k = true) →
  let first := confirm_subscription E c.1 c.2 in
  let w' := world_after (deliver_confirmations E (c :: cs)) w in
  ending first w = Return tt
  ∧ ping_thread_started (self (world_after first w)) = true
  ∧ thread_starts (emitted w (world_after first w)) = 1
  ∧ ping_thread_started (self w') = true
  ∧ thread_starts (emitted w w') = 1.
Proof.
  intros Hnew Hok first w'. destruct c as [topic token].
  pose proof (confirm_subscription_first E topic token w Hnew (Hok _)) as Hfirst.
  set (w1 := {| self := set_ping_thread_started true (self w);
                trace := trace w ++ [SnsConfirmSubscription topic token;
                                     Log INFO "Subscribed." []; ThreadStart] |}) in *.
  assert (Hw' : w' = world_after (deliver_confirmations E cs) w1).
  { subst w'. unfold world_after. simpl. unfold mbind, M_mbind, M_bind.
    by rewrite Hfirst. }
  destruct (deliver_confirmations_started E cs w1 eq_refl Hok)
    as (evs & Htr & Hnone & Hst).
  subst first. unfold ending, world_after in *. simpl in Hfirst |- *.
  rewrite Hfirst. cbn [fst snd].
  split; [reflexivity |]. split; [reflexivity |].
  split; [erewrite emitted_app by reflexivity; reflexivity |].
  rewrite Hw'. split; [exact Hst |].
  rewrite (emitted_app w _ ([SnsConfirmSubscription topic token;
                             Log INFO "Subscribed." []; ThreadStart] ++ evs)).
  - rewrite thread_starts_app, Hnone. reflexivity.
  - rewrite Htr. subst w1. cbn [trace]. by rewrite <- app_assoc.
Qed.

Lemma confirmations_start_thread_once_witness :
  let first := confirm_subscription calm_env some_confirmation.1 some_confirmation.2 in
  let w' := world_after
              (deliver_confirmations calm_env [some_confirmation; some_confirmation])
              (new_world true) in
  ending first (new_world true) = Return tt
  ∧ ping_thread_started (self (world_after first (new_world true))) = true
  ∧ thread_starts (emitted (new_world true) (world_after first (new_world true))) = 1
  ∧ ping_thread_started (self w') = true
  ∧ thread_starts (emitted (new_world true) w') = 1.
Proof.
  apply (confirmations_start_thread_once calm_env some_confirmation
           [some_confirmation] (new_world true)).
  - reflexivity.
  - intros k. reflexivity.
Defined.


(** A turn of the loop on a running instance whose ping is due is one
    cycle. *)
Lemma ping_step_due (E : Env) (w : World) (sent : Z) :
  stopped (self w) = false →
  last_ping_sent (self w) = Some sent →
  (PING_SECS * 1000000 < clock E (tick w) - sent)%Z →
  ping_step E w =
    (ping_cycle E;; mret true)
      {| self := self w; trace := trace w ++ [ClockRead] |}.
Proof.
  intros Hrun Hsent Hdue.
  unfold ping_step, seconds_since_exceed, datetime_now.
  unfold gets at 1 2, ask, emit.
  unfold mbind, mret, M_mbind, M_mret, M_ret.
  unfold M_bind at 1. rewrite Hrun.
  unfold M_bind at 1. rewrite Hsent.
  unfold M_bind. cbn [self trace].
  rewrite bool_decide_eq_true_2 by exact Hdue. reflexivity.
Qed.

Lemma ping_step_first (E : Env) (w : World) :
  stopped (self w) = false →
  last_ping_sent (self w) = None →
  ping_step E w = (ping_cycle E;; mret true) w.
Proof.
  intros Hrun Hsent.
  unfold ping_step. unfold gets at 1 2.
  unfold mbind, mret, M_mbind, M_mret, M_ret.
  unfold M_bind at 1. rewrite Hrun.
  unfold M_bind at 1. rewrite Hsent.
  reflexivity.
Qed.




(** * Further properties of the code *)

#[local] Set Warnings "-clear-no-such-hyp".

(** ** The dispatcher *)

Lemma eq_str_false (v : json) (literal : string) :
  v ≠ JString literal → eq_str v literal = false.
Proof.
  intros Hne. destruct v; simpl; try reflexivity.
  apply String.eqb_neq. intros ->. by apply Hne.
Qed.

(** X1: a notification that is not a heartbeat, names a registered handler
    and has [room], [command] and [data] makes [dispatch_notification] look
    the handler up and call it exactly once with these three values; the
    call returns normally whether the handler returns or raises, and only in
    the second case is an error logged. *)
Theorem dispatch_invokes_registered_handler
    (E : Env) (items : list (string * json)) (name : string) (sk : Skill)
    (command room data : json) (w : World) :
  dict_get "command" items = Some command →
  command ≠ JString "ping" →
  dict_get "handler_name" items = Some (JString name) →
  skills (self w) !! name = Some sk →
  dict_get "room" items = Some room →
  dict_get "data" items = Some data →
  let w' := world_after (dispatch_notification E (JObject items)) w in
  ending (dispatch_notification E (JObject items)) w = Return tt
  ∧ self w' = self w
  ∧ emitted w w' =
      [SkillsGet (JString name); HandleCommand room command data] ++
      match handle_command sk room command data (tick w + 1) with
      | None => []
      | Some _ => [Log EXCEPTION "Unexpected error handling message" []]
      end.
Proof.
  intros Hcmd Hnot Hname Hreg Hroom Hdata w'.
  assert (Hrun : dispatch_notification E (JObject items) w =
    (Return tt,
     {| self := self w;
        trace := trace w ++
          [SkillsGet (JString name); HandleCommand room command data] ++
          match handle_command sk room command data (tick w + 1) with
          | None => []
          | Some _ => [Log EXCEPTION "Unexpected error handling message" []]
          end |})).
  { unfold dispatch_notification, try_except, dispatch_body, subscript.
    rewrite Hcmd, Hname, Hroom, Hdata.
    unfold skills_get, call_handle_command, log, emit, gets, ask, raise, mbind,
      mret, M_mbind, M_bind, M_mret, M_ret.
    rewrite (eq_str_false _ _ Hnot). cbn [self trace]. rewrite Hreg.
    cbn [self trace]. unfold tick. cbn [trace]. rewrite length_app. cbn [length].
    destruct (handle_command sk room command data (length (trace w) + 1));
      cbn [self trace]; by rewrite <- ?app_assoc. }
  subst w'. unfold ending, world_after. rewrite Hrun. cbn [fst snd self].
  erewrite emitted_app by reflexivity. repeat split.
Qed.

Lemma dispatch_invokes_registered_handler_witness :
  ending (dispatch_notification calm_env (JObject lights_items)) lights_world = Return tt
  ∧ self (world_after (dispatch_notification calm_env (JObject lights_items)) lights_world)
    = self lights_world
  ∧ emitted lights_world
      (world_after (dispatch_notification calm_env (JObject lights_items)) lights_world)
    = [SkillsGet (JString "lights");
       HandleCommand (JString "den") (JString "turnOn") (JObject [])].
Proof.
  apply (dispatch_invokes_registered_handler calm_env lights_items "lights" quiet_skill
           (JString "turnOn") (JString "den") (JObject []) lights_world).
  - reflexivity.
  - discriminate.
  - reflexivity.
  - reflexivity.
  - reflexivity.
  - reflexivity.
Defined.

(** X2: whatever the notification, the registry and the environment, when
    [dispatch_notification] calls a skill, the notification is a dict that
    is not a heartbeat, its [handler_name] is registered and the arguments
    of the call are its [room], [command] and [data]. *)
Theorem dispatch_calls_only_routed_handlers
    (E : Env) (notification : json) (w : World) (room command data : json) :
  HandleCommand room command data
    ∈ emitted w (world_after (dispatch_notification E notification) w) →
  ∃ items name,
    notification = JObject items
    ∧ dict_get "command" items = Some command
    ∧ command ≠ JString "ping"
    ∧ dict_get "handler_name" items = Some (JString name)
    ∧ is_Some (skills (self w) !! name)
    ∧ dict_get "room" items = Some room
    ∧ dict_get "data" items = Some data.
Proof.
  unfold world_after, dispatch_notification, try_except, dispatch_body, subscript,
    skills_get, call_handle_command, datetime_now, log, emit, modify, gets, ask,
    raise, mbind, mret, M_mbind, M_bind, M_mret, M_ret.
  intros Hin.
  repeat (case_match; cbn [fst snd self trace] in *; simplify_eq);
    unfold emitted in Hin; cbn [trace] in Hin;
    rewrite <- ?app_assoc in Hin; rewrite ?drop_app_length in Hin;
    cbn [app] in Hin.
  all: try (exfalso; set_solver).
  all: set_unfold in Hin; destruct_or?; simplify_eq.
  all: eexists _, _; repeat split; eauto.
  all: intros ->; discriminate.
Qed.

Lemma dispatch_calls_only_routed_handlers_witness :
  ∃ items name,
    JObject lights_items = JObject items
    ∧ dict_get "command" items = Some (JString "turnOn")
    ∧ JString "turnOn" ≠ JString "ping"
    ∧ dict_get "handler_name" items = Some (JString name)
    ∧ is_Some (skills (self lights_world) !! name)
    ∧ dict_get "room" items = Some (JString "den")
    ∧ dict_get "data" items = Some (JObject []).
Proof.
  apply (dispatch_calls_only_routed_handlers calm_env (JObject lights_items)
           lights_world).
  vm_compute. set_solver.
Defined.

(** ** The webhook *)







(** X6: whatever the request, the state and the environment, [do_POST] and
    everything it calls only log, read the clock and the request, answer it,
    confirm the subscription, start the heartbeat thread and look up and
    call skills: it never restarts the process, never publishes or
    unsubscribes, never lists the subscriptions, never touches the port
    mapping and never stops the server or joins the thread. *)
Theorem do_POST_stays_in_its_lane (E : Env) (req : Request) (w : World) :
  Forall is_listener_event (emitted w (world_after (do_POST E req) w)).
Proof.
  assert (Hs : steps (extends_with is_listener_event) (process_body E req))
    by (apply process_body_within; intros; exact I).
  set (w3 := {| self := self w;
                trace := ((trace w ++ [SendResponse 200])
                            ++ [SendHeader "content-type" "text/html"])
                            ++ [EndHeaders] |}).
  destruct (Hs w3) as (evs & Htr & Hall).
  change (world_after (do_POST E req) w) with (world_after (process_body E req) w3).
  rewrite (emitted_app w _
    ([SendResponse 200; SendHeader "content-type" "text/html"; EndHeaders] ++ evs)).
  - repeat (constructor; [exact I |]). exact Hall.
  - rewrite Htr. subst w3. cbn [trace]. by rewrite <- !app_assoc.
Qed.

(** ** Confirmation *)

(** A confirmation SNS does not accept. *)
Lemma confirm_subscription_rejected (E : Env) topic token (w : World) :
  sns_confirm_subscription E (tick w) = false →
  confirm_subscription E topic token w =
    (Raise (SystemExit 1),
     {| self := self w;
        trace := trace w ++
          [SnsConfirmSubscription topic token;
           Log EXCEPTION "Failed to confirm subscription. Please check in AWS." []] |}).
Proof.
  intros Hno.
  unfold confirm_subscription, try_except, sns_client_confirm_subscription,
    ping_thread_start, log, gets, ask, emit, modify, sys_exit, raise, mbind, mret,
    M_mbind, M_bind, M_mret, M_ret.
  rewrite Hno. cbn [self trace]. by rewrite <- !app_assoc.
Qed.

(** X7: [confirm_subscription] either returns, and then SNS accepted the
    confirmation, the heartbeat thread was not running and has been started
    once; or it ends in [SystemExit 1], and then SNS refused or the thread
    was running already, the instance is unchanged and no thread was
    started.  The heartbeat never starts on a confirmation SNS refused. *)
Theorem confirm_subscription_starts_or_exits
    (E : Env) (topic : option string) (token : json) (w : World) :
  let w' := world_after (confirm_subscription E topic token) w in
  (ending (confirm_subscription E topic token) w = Return tt
   ∧ sns_confirm_subscription E (tick w) = true
   ∧ ping_thread_started (self w) = false
   ∧ self w' = set_ping_thread_started true (self w)
   ∧ thread_starts (emitted w w') = 1)
  ∨ (ending (confirm_subscription E topic token) w = Raise (SystemExit 1)
     ∧ (sns_confirm_subscription E (tick w) = false
        ∨ ping_thread_started (self w) = true)
     ∧ self w' = self w
     ∧ thread_starts (emitted w w') = 0).
Proof.
  intros w'. subst w'. unfold ending, world_after.
  destruct (sns_confirm_subscription E (tick w)) eqn:Hok.
  - destruct (ping_thread_started (self w)) eqn:Hst.
    + right. rewrite (confirm_subscription_again E topic token w Hst Hok).
      cbn [fst snd self]. erewrite emitted_app by reflexivity.
      repeat split. by right.
    + left. rewrite (confirm_subscription_first E topic token w Hst Hok).
      cbn [fst snd self]. erewrite emitted_app by reflexivity.
      repeat split.
  - right. rewrite (confirm_subscription_rejected E topic token w Hok).
    cbn [fst snd self]. erewrite emitted_app by reflexivity.
    repeat split. by left.
Qed.

(** ** Unsubscription *)

(** X8: [find_subscription] answers with the identifier of the first listed
    subscription that has the topic and the endpoint asked for, and with
    nothing exactly when no listed subscription has both. *)
Theorem find_subscription_first_match (topic url : string) (subs : list Subscription) :
  (∀ arn,
     find_subscription topic url subs = Some arn ↔
     ∃ before sub after,
       subs = before ++ sub :: after
       ∧ Forall (λ s, ¬ matches topic url s) before
       ∧ matches topic url sub
       ∧ SubscriptionArn sub = arn)
  ∧ (find_subscription topic url subs = None ↔
     Forall (λ s, ¬ matches topic url s) subs).
Proof.
  induction subs as [| sub subs [IHsome IHnone]]; simpl.
  - split.
    + intros arn. split; [discriminate |].
      intros (before & s & after & Heq & _). by destruct before.
    + split; [constructor | reflexivity].
  - destruct (String.eqb (TopicArn sub) topic) eqn:Ht;
      destruct (String.eqb (Endpoint sub) url) eqn:He; simpl.
    1: { apply String.eqb_eq in Ht, He. split.
         - intros arn. split.
           + intros [= <-]. exists [], sub, subs.
             split; [done |]. split; [constructor |]. by split.
           + intros (before & s & after & Heq & Hbefore & Hs & Harn).
             destruct before as [| b before]; simplify_eq/=; [done |].
             apply Forall_cons in Hbefore as [Hb _]. destruct Hb. by split.
         - split; [discriminate |].
           intros Hall. apply Forall_cons in Hall as [Hb _]. destruct Hb. by split. }
    all: assert (Hno : ¬ matches topic url sub)
      by (intros [Hm1 Hm2];
          first [apply String.eqb_neq in Ht; by apply Ht
                | apply String.eqb_neq in He; by apply He]).
    all: split;
      [ intros arn; rewrite IHsome; split;
        [ intros (before & s & after & -> & Hbefore & Hs & Harn);
          exists (sub :: before), s, after;
          split; [done |]; split; [by constructor |]; by split
        | intros (before & s & after & Heq & Hbefore & Hs & Harn);
          destruct before as [| b before]; simplify_eq/=; [done |];
          apply Forall_cons in Hbefore as [_ Hbefore];
          by exists before, s, after ]
      | rewrite IHnone; split;
        [ intros Hall; by constructor
        | intros Hall; by apply Forall_cons in Hall as [_ Hall] ] ].
Qed.

Lemma find_subscription_listed (topic url : string) (subs : list Subscription) (arn : string) :
  find_subscription topic url subs = Some arn →
  ∃ sub, sub ∈ subs ∧ matches topic url sub ∧ SubscriptionArn sub = arn.
Proof.
  induction subs as [| sub subs IH]; simpl; [discriminate |].
  destruct (String.eqb (TopicArn sub) topic) eqn:Ht;
    destruct (String.eqb (Endpoint sub) url) eqn:He; simpl.
  1: { intros [= <-]. apply String.eqb_eq in Ht, He.
       exists sub. split; [left |]. by repeat split. }
  all: intros H; destruct (IH H) as (s & Hin & Hm & Harn);
    exists s; split; [by right | by split].
Qed.



(** X10: [unsubscribe] never removes a subscription that is not the
    instance's own.  Whatever the state and the environment, an identifier
    it asks SNS to unsubscribe starts with [arn:aws:sns:] and belongs to a
    subscription SNS listed for the topic and the endpoint of the
    instance. *)
Theorem unsubscribe_removes_only_own (E : Env) (w : World) (arn : string) :
  SnsUnsubscribe arn ∈ emitted w (world_after (unsubscribe E) w) →
  slice_to 12 arn = "arn:aws:sns:"
  ∧ ∃ k subs sub,
      sns_list_subscriptions_by_topic E k = Some subs
      ∧ sub ∈ subs
      ∧ matches (topic_arn (self w)) (endpoint_url (self w)) sub
      ∧ SubscriptionArn sub = arn.
Proof.
  unfold world_after, unsubscribe, deleteportmapping, list_subscriptions_by_topic,
    sns_client_unsubscribe, log, gets, ask, emit, sys_exit, raise, mbind, mret,
    M_mbind, M_bind, M_mret, M_ret.
  intros Hin.
  repeat (case_match; cbn [fst snd self trace] in *; simplify_eq);
    unfold emitted in Hin; cbn [trace] in Hin;
    rewrite <- ?app_assoc in Hin; rewrite ?drop_app_length in Hin;
    cbn [app] in Hin.
  all: try (exfalso; set_solver).
  all: set_unfold in Hin; destruct_or?; simplify_eq.
  all: match goal with
       | H : String.eqb (slice_to 12 _) _ = true |- _ => apply String.eqb_eq in H
       end.
  all: match goal with
       | H : find_subscription _ _ _ = Some _ |- _ =>
           destruct (find_subscription_listed _ _ _ _ H) as (sub & Hsub & Hm & Harn)
       end.
  all: split; [done |]; eexists _, _, sub; eauto.
Qed.

Lemma unsubscribe_removes_only_own_witness :
  slice_to 12 "arn:aws:sns:eu-west-1:1:alexa:own" = "arn:aws:sns:"
  ∧ ∃ k subs sub,
      sns_list_subscriptions_by_topic listed_env k = Some subs
      ∧ sub ∈ subs
      ∧ matches (topic_arn (self (new_world true)))
          (endpoint_url (self (new_world true))) sub
      ∧ SubscriptionArn sub = "arn:aws:sns:eu-west-1:1:alexa:own".
Proof.
  apply (unsubscribe_removes_only_own listed_env (new_world true)).
  vm_compute. set_solver.
Defined.

Lemma emitted_refl (w : World) : emitted w w = [].
Proof.
  unfold emitted. rewrite <- (app_nil_r (trace w)) at 2. apply drop_app_length.
Qed.

Lemma unsubscribe_manual_no_upnp (E : Env) (w : World) :
  manual_port_forward (self w) = true →
  ∃ evs,
    trace (world_after (unsubscribe E) w) = trace w ++ evs
    ∧ Forall (λ ev, ¬ is_upnp ev) evs.
Proof.
  intros Hman.
  unfold world_after, unsubscribe, deleteportmapping, list_subscriptions_by_topic,
    sns_client_unsubscribe, log, gets, ask, emit, sys_exit, raise, mbind, mret,
    M_mbind, M_bind, M_mret, M_ret.
  rewrite Hman.
  repeat (case_match; cbn [fst snd self trace] in *; simplify_eq);
    rewrite <- ?app_assoc; eexists; (split; [reflexivity |]);
    repeat constructor; simpl; tauto.
Qed.

(** X11: an instance whose port was forwarded by hand never touches the port
    mapping when it shuts down: whatever the environment, neither
    [shutdown] nor the [unsubscribe] it calls asks the router to delete a
    mapping. *)
Theorem shutdown_with_manual_port_leaves_router_alone (E : Env) (w : World) :
  manual_port_forward (self w) = true →
  Forall (λ ev, ¬ is_upnp ev) (emitted w (world_after (shutdown E) w))
  ∧ Forall (λ ev, ¬ is_upnp ev) (emitted w (world_after (unsubscribe E) w)).
Proof.
  intros Hman. split.
  - destruct (stopped (self w)) eqn:Hst.
    + unfold world_after. rewrite (shutdown_stopped_noop E w Hst). cbn [snd].
      rewrite emitted_refl. constructor.
    + unfold world_after. rewrite (shutdown_running E w Hst).
      set (w1 := {| self := set_stopped true (self w); trace := _ |}).
      fold (world_after (unsubscribe E;; emit ServerShutdown;; ping_thread_join 5) w1).
      rewrite (world_after_cut _ _ w1 (unsubscribe_never_returns E)).
      destruct (unsubscribe_manual_no_upnp E w1 Hman) as (evs & Htr & Hall).
      rewrite (emitted_app w _ (Log INFO "Shutting down HTTP listener" [] :: evs)).
      * constructor; [simpl; tauto | exact Hall].
      * rewrite Htr. subst w1. cbn [trace]. by rewrite <- app_assoc.
  - destruct (unsubscribe_manual_no_upnp E w Hman) as (evs & Htr & Hall).
    by rewrite (emitted_app w _ evs Htr).
Qed.

Lemma shutdown_with_manual_port_leaves_router_alone_witness :
  Forall (λ ev, ¬ is_upnp ev)
    (emitted (new_world true) (world_after (shutdown calm_env) (new_world true)))
  ∧ Forall (λ ev, ¬ is_upnp ev)
      (emitted (new_world true) (world_after (unsubscribe calm_env) (new_world true))).
Proof.
  apply (shutdown_with_manual_port_leaves_router_alone calm_env (new_world true)).
  reflexivity.
Defined.

(** ** The heartbeat loop *)

Lemma ping_step_waits (E : Env) (w : World) (sent : Z) :
  stopped (self w) = false →
  last_ping_sent (self w) = Some sent →
  (clock E (tick w) - sent ≤ PING_SECS * 1000000)%Z →
  ping_step E w =
    (Return true,
     {| self := self w; trace := trace w ++ [ClockRead; Sleep 1] |}).
Proof.
  intros Hrun Hsent Hearly.
  unfold ping_step, seconds_since_exceed, datetime_now, time_sleep.
  unfold gets at 1 2, ask, emit.
  unfold mbind, mret, M_mbind, M_mret, M_ret.
  unfold M_bind at 1. rewrite Hrun.
  unfold M_bind at 1. rewrite Hsent.
  unfold M_bind. cbn [self trace].
  rewrite bool_decide_eq_false_2 by lia.
  cbn [self trace]. by rewrite <- ?app_assoc.
Qed.

(** X12: no ping before the interval is over.  On a running instance that
    sent its last ping at [sent], as long as the clock does not show more
    than [PING_SECS] = 600 seconds past [sent], every turn of the loop
    reads the clock and sleeps one second, and nothing else: no call to
    SNS, no change of the instance. *)
Theorem ping_waits_for_the_interval (E : Env) (fuel : nat) (w : World) (sent : Z) :
  stopped (self w) = false →
  last_ping_sent (self w) = Some sent →
  (∀ k, clock E k - sent ≤ PING_SECS * 1000000)%Z →
  ping E fuel w =
    (Return false,
     {| self := self w;
        trace := trace w ++ concat (replicate fuel [ClockRead; Sleep 1]) |}).
Proof.
  intros Hrun Hsent Hearly. revert w Hrun Hsent.
  induction fuel as [| fuel IH]; intros w Hrun Hsent.
  - simpl. destruct w. unfold mret, M_mret, M_ret. simpl. by rewrite app_nil_r.
  - cbn [ping]. unfold mbind, M_mbind, M_bind.
    rewrite (ping_step_waits E w sent Hrun Hsent (Hearly _)).
    rewrite IH by assumption. cbn [self trace replicate concat].
    by rewrite <- !app_assoc.
Qed.

Lemma ping_waits_for_the_interval_witness :
  ping calm_env 3 waiting_world =
    (Return false,
     {| self := self waiting_world;
        trace := trace waiting_world ++ concat (replicate 3 [ClockRead; Sleep 1]) |}).
Proof.
  apply (ping_waits_for_the_interval calm_env 3 waiting_world 4800000000).
  - reflexivity.
  - reflexivity.
  - intros k. unfold PING_SECS. simpl. lia.
Defined.

#[export] Instance keeps_preorder {A} (f : Subscriber → A) : PreOrder (keeps f).
Proof.
  split.
  - intros w. reflexivity.
  - intros w1 w2 w3 H12 H23. unfold keeps in *. congruence.
Qed.

Lemma keeps_emit {A} (f : Subscriber → A) (ev : Event) : steps (keeps f) (emit ev).
Proof. intros w. reflexivity. Qed.

Lemma keeps_restart {A B} (f : Subscriber → A) : steps (keeps f) (@restart B).
Proof. intros w. reflexivity. Qed.

Lemma keeps_modify {A} (f : Subscriber → A) (g : Subscriber → Subscriber) :
  (∀ s, f (g s) = f s) → steps (keeps f) (modify g).
Proof. intros Hfg w. unfold keeps, world_after. simpl. apply Hfg. Qed.

(** Finishes the goals [steps_tac] leaves when the relation is [keeps f]. *)
Ltac keeps_tac :=
  steps_tac;
  first [ apply keeps_emit
        | apply keeps_restart
        | apply keeps_modify; intros ?; reflexivity ].

(** X13: each field has one writer.  The heartbeat loop changes nothing of
    the instance but [last_ping_sent]; the webhook, with the confirmation
    and the dispatch it calls, changes nothing but [last_ping_received] and
    the state of the heartbeat thread, and never [last_ping_sent]. *)
Theorem fields_have_one_writer (E : Env) :
  (∀ fuel, steps (keeps (set_last_ping_sent None)) (ping E fuel))
  ∧ (∀ req,
       steps (keeps (λ s, set_last_ping_received None (set_ping_thread_started false s)))
         (do_POST E req))
  ∧ (∀ req, steps (keeps last_ping_sent) (do_POST E req)).
Proof.
  split; [| split].
  - assert (Hstep : steps (keeps (set_last_ping_sent None)) (ping_step E)).
    { unfold ping_step, ping_cycle, seconds_since_exceed, datetime_now, publish,
        list_subscriptions_by_topic, time_sleep, log.
      keeps_tac. }
    intros fuel. induction fuel as [| fuel IH]; simpl; steps_tac.
  - intros req.
    unfold do_POST, process_body, int_of_header, rfile_read, loads_value, loads,
      confirm_subscription, sns_client_confirm_subscription, ping_thread_start,
      dispatch_notification, dispatch_body, skills_get, call_handle_command,
      datetime_now, subscript, log.
    keeps_tac.
  - intros req.
    unfold do_POST, process_body, int_of_header, rfile_read, loads_value, loads,
      confirm_subscription, sns_client_confirm_subscription, ping_thread_start,
      dispatch_notification, dispatch_body, skills_get, call_handle_command,
      datetime_now, subscript, log.
    keeps_tac.
Qed.

Lemma ping_step_unacknowledged (E : Env) (w : World) :
  last_ping_received (self w) = None →
  ending (ping_step E) w ≠ Replaced
  ∧ last_ping_received (self (world_after (ping_step E) w)) = None
  ∧ ∃ evs,
      trace (world_after (ping_step E) w) = trace w ++ evs
      ∧ Forall (λ ev, ¬ is_restart ev) evs.
Proof.
  intros Hnone.
  unfold ending, world_after, ping_step, ping_cycle, seconds_since_exceed,
    datetime_now, publish, list_subscriptions_by_topic, time_sleep, restart, log,
    gets, ask, emit, modify, raise, mbind, mret, M_mbind, M_bind, M_mret, M_ret.
  repeat (case_match; cbn [fst snd self trace set_last_ping_sent last_ping_received] in *;
          simplify_eq).
  all: repeat match goal with
              | H : context [self {| self := _; trace := _ |}] |- _ =>
                  progress cbn [self] in H
              end;
       try congruence.
  all: split; [discriminate |]; split; [assumption |].
  all: cbn [trace]; rewrite <- ?app_assoc;
    first [ by exists []; rewrite app_nil_r | eexists ];
    (split; [reflexivity |]); repeat constructor; simpl; tauto.
Qed.

Lemma ping_unacknowledged (E : Env) (fuel : nat) (w : World) :
  last_ping_received (self w) = None →
  ending (ping E fuel) w ≠ Replaced
  ∧ ∃ evs,
      trace (world_after (ping E fuel) w) = trace w ++ evs
      ∧ Forall (λ ev, ¬ is_restart ev) evs.
Proof.
  revert w. induction fuel as [| fuel IH]; intros w Hnone.
  - split; [discriminate |]. exists []. split; [by rewrite app_nil_r | constructor].
  - destruct (ping_step_unacknowledged E w Hnone) as (Hend & Hkeep & evs1 & Htr1 & Hall1).
    unfold ending, world_after in *. cbn [ping]. unfold mbind, M_mbind, M_bind.
    destruct (ping_step E w) as [[[|] | e |] w1]; cbn [fst snd] in *.
    + destruct (IH w1 Hkeep) as (Hend2 & evs2 & Htr2 & Hall2).
      split; [exact Hend2 |]. exists (evs1 ++ evs2). split.
      * rewrite Htr2, Htr1. by rewrite <- app_assoc.
      * apply Forall_app. by split.
    + split; [discriminate |]. by exists evs1.
    + split; [discriminate |]. by exists evs1.
    + done.
Qed.

(** X14: as long as no acknowledgement has been received, the heartbeat
    loop never restarts the process, however many turns it takes and
    whatever the clock and SNS do. *)
Theorem ping_never_restarts_unacknowledged (E : Env) (fuel : nat) (w : World) :
  last_ping_received (self w) = None →
  ending (ping E fuel) w ≠ Replaced
  ∧ Forall (λ ev, ¬ is_restart ev) (emitted w (world_after (ping E fuel) w)).
Proof.
  intros Hnone.
  destruct (ping_unacknowledged E fuel w Hnone) as (Hend & evs & Htr & Hall).
  split; [exact Hend |]. by rewrite (emitted_app w _ evs Htr).
Qed.

Lemma ping_never_restarts_unacknowledged_witness :
  ending (ping calm_env 5) unanswered_world ≠ Replaced
  ∧ Forall (λ ev, ¬ is_restart ev)
      (emitted unanswered_world (world_after (ping calm_env 5) unanswered_world)).
Proof.
  apply (ping_never_restarts_unacknowledged calm_env 5 unanswered_world).
  reflexivity.
Defined.

Lemma ping_step_listing_down (E : Env) (w : World) :
  (∀ k, sns_list_subscriptions_by_topic E k = None) →
  self (world_after (ping_step E) w) = self w
  ∧ ∃ evs,
      trace (world_after (ping_step E) w) = trace w ++ evs
      ∧ Forall (λ ev, ¬ is_publish ev) evs.
Proof.
  intros Hdown.
  unfold ending, world_after, ping_step, ping_cycle, seconds_since_exceed,
    datetime_now, publish, list_subscriptions_by_topic, time_sleep, restart, log,
    gets, ask, emit, modify, raise, mbind, mret, M_mbind, M_bind, M_mret, M_ret.
  repeat (case_match; cbn [fst snd self trace] in *; simplify_eq).
  all: try match goal with
           | H : sns_list_subscriptions_by_topic _ _ = Some _ |- _ =>
               rewrite Hdown in H; discriminate
           end.
  all: split; [reflexivity |].
  all: cbn [trace]; rewrite <- ?app_assoc;
    first [ by exists []; rewrite app_nil_r | eexists ];
    (split; [reflexivity |]); repeat constructor; simpl; tauto.
Qed.

Lemma ping_listing_down (E : Env) (fuel : nat) (w : World) :
  (∀ k, sns_list_subscriptions_by_topic E k = None) →
  self (world_after (ping E fuel) w) = self w
  ∧ ∃ evs,
      trace (world_after (ping E fuel) w) = trace w ++ evs
      ∧ Forall (λ ev, ¬ is_publish ev) evs.
Proof.
  intros Hdown. revert w. induction fuel as [| fuel IH]; intros w.
  - split; [reflexivity |]. exists []. split; [by rewrite app_nil_r | constructor].
  - destruct (ping_step_listing_down E w Hdown) as (Hself & evs1 & Htr1 & Hall1).
    unfold world_after in *. cbn [ping]. unfold mbind, M_mbind, M_bind.
    destruct (ping_step E w) as [[[|] | e |] w1]; cbn [fst snd] in *;
      try (split; [exact Hself | by exists evs1]).
    destruct (IH w1) as (Hself2 & evs2 & Htr2 & Hall2).
    split; [congruence |]. exists (evs1 ++ evs2). split.
    + rewrite Htr2, Htr1. by rewrite <- app_assoc.
    + apply Forall_app. by split.
Qed.

(** X15: the heartbeat does not survive an SNS that cannot list the
    subscriptions.  While [list_subscriptions_by_topic] raises, the loop
    publishes no ping and leaves the instance as it is, however long it
    runs; and on a running instance that has not pinged yet, the first turn
    ends the loop with the error of SNS right after the attempt. *)
Theorem ping_dies_when_listing_fails (E : Env) (fuel : nat) (w : World) :
  (∀ k, sns_list_subscriptions_by_topic E k = None) →
  let w' := world_after (ping E fuel) w in
  self w' = self w
  ∧ Forall (λ ev, ¬ is_publish ev) (emitted w w')
  ∧ (stopped (self w) = false → last_ping_sent (self w) = None →
     ping E (S fuel) w =
       (Raise (ClientError "ListSubscriptionsByTopic"),
        {| self := self w;
           trace := trace w ++ [SnsListSubscriptionsByTopic (topic_arn (self w))] |})).
Proof.
  intros Hdown w'. subst w'.
  destruct (ping_listing_down E fuel w Hdown) as (Hself & evs & Htr & Hall).
  split; [exact Hself |]. split; [by rewrite (emitted_app w _ evs Htr) |].
  intros Hrun Hfirst. cbn [ping]. unfold mbind at 1, M_mbind, M_bind at 1.
  rewrite (ping_step_first E w Hrun Hfirst).
  unfold ping_cycle, list_subscriptions_by_topic, gets, ask, emit, raise, mbind,
    mret, M_mbind, M_bind, M_mret, M_ret.
  rewrite Hdown. reflexivity.
Qed.

Lemma ping_dies_when_listing_fails_witness :
  self (world_after (ping listing_down_env 2) (new_world true)) = self (new_world true)
  ∧ Forall (λ ev, ¬ is_publish ev)
      (emitted (new_world true) (world_after (ping listing_down_env 2) (new_world true)))
  ∧ ping listing_down_env 3 (new_world true) =
      (Raise (ClientError "ListSubscriptionsByTopic"),
       {| self := self (new_world true);
          trace := trace (new_world true) ++
            [SnsListSubscriptionsByTopic (topic_arn (self (new_world true)))] |}).
Proof.
  destruct (ping_dies_when_listing_fails listing_down_env 2 (new_world true))
    as (Hself & Hquiet & Hdies).
  - intros k. reflexivity.
  - split; [exact Hself |]. split; [exact Hquiet |].
    apply Hdies; reflexivity.
Defined.

(** ** The accept loop *)

Lemma confirm_subscription_shape (E : Env) topic token (w : World) :
  ∃ evs,
    trace (world_after (confirm_subscription E topic token) w) =
      trace w ++ SnsConfirmSubscription topic token :: evs
    ∧ (ending (confirm_subscription E topic token) w = Return tt
       ∨ ending (confirm_subscription E topic token) w = Raise (SystemExit 1)).
Proof.
  unfold ending, world_after.
  destruct (sns_confirm_subscription E (tick w)) eqn:Hok.
  - destruct (ping_thread_started (self w)) eqn:Hst.
    + rewrite (confirm_subscription_again E topic token w Hst Hok).
      eexists. split; [reflexivity | by right].
    + rewrite (confirm_subscription_first E topic token w Hst Hok).
      eexists. split; [reflexivity | by left].
  - rewrite (confirm_subscription_rejected E topic token w Hok).
    eexists. split; [reflexivity | by right].
Qed.

Lemma dispatch_notification_returns (E : Env) (notification : json) (w : World) :
  ending (dispatch_notification E notification) w = Return tt.
Proof.
  pose proof (dispatch_notification_catches E notification w) as H.
  unfold ending.
  destruct (dispatch_body E notification w) as [[[] | e |] w1]; try contradiction;
    by rewrite H.
Qed.

Lemma safe_ret {A} (a : A) : listener_safe (mret a : M A).
Proof. intros w. exists []. split; [by rewrite app_nil_r | exact I]. Qed.

Lemma safe_raise {A} (e : exn) : is_Exception e = true → listener_safe (@raise A e).
Proof. intros He w. exists []. split; [by rewrite app_nil_r | by left]. Qed.

Lemma safe_gets {A} (f : Subscriber → A) : listener_safe (gets f).
Proof. intros w. exists []. split; [by rewrite app_nil_r | exact I]. Qed.

Lemma safe_emit (ev : Event) : listener_safe (emit ev).
Proof. intros w. exists [ev]. split; [reflexivity | exact I]. Qed.

Lemma safe_bind {A B} (m : M A) (f : A → M B) :
  listener_safe m → (∀ a, listener_safe (f a)) → listener_safe (m ≫= f).
Proof.
  intros Hm Hf w. destruct (Hm w) as (evs1 & Htr1 & Hend1).
  unfold ending, world_after, mbind, M_mbind, M_bind in *.
  destruct (m w) as [[a | e |] w1]; cbn [fst snd] in *.
  - destruct (Hf a w1) as (evs2 & Htr2 & Hend2).
    unfold ending, world_after in *.
    exists (evs1 ++ evs2). split; [rewrite Htr2, Htr1; by rewrite <- app_assoc |].
    destruct (f a w1) as [[b | e |] w2]; cbn [fst snd] in *; try done.
    destruct Hend2 as [He | [He Hex]]; [by left | right].
    split; [exact He |]. apply Exists_app. by right.
  - by exists evs1.
  - done.
Qed.

Lemma safe_confirm_subscription (E : Env) topic token :
  listener_safe (confirm_subscription E topic token).
Proof.
  intros w.
  destruct (confirm_subscription_shape E topic token w) as (evs & Htr & [Hend | Hend]);
    exists (SnsConfirmSubscription topic token :: evs);
    (split; [exact Htr |]); rewrite Hend; [exact I |].
  right. split; [reflexivity |]. by left.
Qed.

Lemma safe_dispatch_notification (E : Env) (notification : json) :
  listener_safe (dispatch_notification E notification).
Proof.
  intros w.
  assert (Hs : steps (extends_with (λ _, True)) (dispatch_notification E notification))
    by (apply dispatch_notification_within; intros; exact I).
  destruct (Hs w) as (evs & Htr & _). exists evs. split; [exact Htr |].
  by rewrite dispatch_notification_returns.
Qed.

(** Decomposes a goal [listener_safe m] along the structure of [m]. *)
Ltac safe_tac :=
  repeat
    match goal with
    | |- listener_safe (mret _) => apply safe_ret
    | |- listener_safe (raise _) => apply safe_raise; reflexivity
    | |- listener_safe (gets _) => apply safe_gets
    | |- listener_safe (emit _) => apply safe_emit
    | |- listener_safe (confirm_subscription _ _ _) => apply safe_confirm_subscription
    | |- listener_safe (dispatch_notification _ _) => apply safe_dispatch_notification
    | |- listener_safe (_ ≫= _) => apply safe_bind; [ | intros ? ]
    | |- listener_safe (if ?b then _ else _) => destruct b
    | |- listener_safe (match ?x with _ => _ end) => destruct x
    end.

Lemma safe_do_POST (E : Env) (req : Request) : listener_safe (do_POST E req).
Proof.
  unfold do_POST, process_body, int_of_header, rfile_read, loads_value, loads,
    subscript, log.
  safe_tac.
Qed.

Lemma handle_request_world (E : Env) (req : Request) (w : World) :
  world_after (handle_request E req) w = world_after (do_POST E req) w.
Proof.
  unfold world_after, handle_request.
  destruct (do_POST E req w) as [[a | e |] w1]; try reflexivity.
  by destruct (is_Exception e).
Qed.

(** X16: the only exception [handle_request] lets through to the accept loop
    is the [SystemExit 1] of a subscription confirmation that was tried
    and did not succeed; whatever else goes wrong with a request is dropped
    by the server. *)
Theorem handle_request_raises_only_after_confirmation
    (E : Env) (req : Request) (w : World) (e : exn) :
  ending (handle_request E req) w = Raise e →
  e = SystemExit 1
  ∧ Exists is_confirm_call (emitted w (world_after (handle_request E req) w)).
Proof.
  intros Hraise. rewrite handle_request_world.
  destruct (safe_do_POST E req w) as (evs & Htr & Hend).
  rewrite (emitted_app w _ evs Htr).
  revert Hraise Hend. unfold ending, handle_request.
  destruct (do_POST E req w) as [[a | e' |] w1]; cbn [fst]; try done.
  destruct (is_Exception e') eqn:He; cbn [fst]; [done |].
  intros [= ->] [Habs | [-> Hex]]; [congruence | done].
Qed.

Lemma handle_request_raises_only_after_confirmation_witness :
  SystemExit 1 = SystemExit 1
  ∧ Exists is_confirm_call
      (emitted confirmed_world
         (world_after (handle_request webhook_env confirmation_request) confirmed_world)).
Proof.
  apply (handle_request_raises_only_after_confirmation webhook_env
           confirmation_request confirmed_world (SystemExit 1)).
  reflexivity.
Defined.

Lemma serve_forever_step (E : Env) (req : Request) (rest : list Request) (w : World) :
  stopped (self w) = false →
  serve_forever E (req :: rest) w =
    match do_POST E req w with
    | (Raise (SystemExit code), w1) =>
        (Return LoopLeft,
         {| self := self w1;
            trace := trace w1 ++ [Log EXCEPTION "Unexpected error" []] |})
    | (Replaced, w1) => (Replaced, w1)
    | (_, w1) => serve_forever E rest w1
    end.
Proof.
  intros Hrun.
  unfold serve_forever, try_except. cbn [serve_loop].
  unfold gets, mbind at 1, M_mbind, M_bind at 1. rewrite Hrun.
  unfold mbind, M_mbind, M_bind, handle_request.
  destruct (do_POST E req w) as [[[] | e |] w1]; try reflexivity.
  destruct e; reflexivity.
Qed.

(** X17: a request whose processing does not end in [SystemExit] does not
    stop the listener, even when it raises: on a running instance the loop
    goes on with the next request, from the world the request left. *)
Theorem serve_forever_goes_on
    (E : Env) (req : Request) (rest : list Request) (w : World) :
  stopped (self w) = false →
  (∀ code, ending (do_POST E req) w ≠ Raise (SystemExit code)) →
  serve_forever E (req :: rest) w =
  serve_forever E rest (world_after (do_POST E req) w).
Proof.
  intros Hrun Hno. rewrite (serve_forever_step E req rest w Hrun).
  destruct (safe_do_POST E req w) as (evs & _ & Hend).
  unfold ending, world_after in *.
  destruct (do_POST E req w) as [[[] | e |] w1]; cbn [fst snd] in *;
    [reflexivity | | done].
  destruct e; try reflexivity. by destruct (Hno code).
Qed.

Lemma serve_forever_goes_on_witness :
  serve_forever calm_env [headless_request; headless_request] (new_world true) =
  serve_forever calm_env [headless_request]
    (world_after (do_POST calm_env headless_request) (new_world true)).
Proof.
  apply (serve_forever_goes_on calm_env headless_request [headless_request]
           (new_world true)).
  - reflexivity.
  - intros code. discriminate.
Defined.

(** X18: a confirmation that ends in [SystemExit] ends the listener, not the
    process: on a running instance [serve_forever] catches the exit, logs
    'Unexpected error' and returns normally; the requests that follow are
    not served. *)
Theorem serve_forever_swallows_the_exit
    (E : Env) (req : Request) (rest : list Request) (w : World) (code : Z) :
  stopped (self w) = false →
  ending (do_POST E req) w = Raise (SystemExit code) →
  serve_forever E (req :: rest) w =
    (Return LoopLeft,
     {| self := self (world_after (do_POST E req) w);
        trace := trace (world_after (do_POST E req) w)
                 ++ [Log EXCEPTION "Unexpected error" []] |}).
Proof.
  intros Hrun Hexit. rewrite (serve_forever_step E req rest w Hrun).
  unfold ending, world_after in *.
  destruct (do_POST E req w) as [[[] | e |] w1]; cbn [fst snd] in *;
    try discriminate.
  by injection Hexit as ->.
Qed.

Lemma serve_forever_swallows_the_exit_witness :
  serve_forever webhook_env [confirmation_request; notification_request] confirmed_world =
    (Return LoopLeft,
     {| self := self (world_after (do_POST webhook_env confirmation_request) confirmed_world);
        trace := trace (world_after (do_POST webhook_env confirmation_request) confirmed_world)
                 ++ [Log EXCEPTION "Unexpected error" []] |}).
Proof.
  apply (serve_forever_swallows_the_exit webhook_env confirmation_request
           [notification_request] confirmed_world 1).
  - reflexivity.
  - reflexivity.
Defined.

Lemma answers_app (evs1 evs2 : list Event) :
  answers (evs1 ++ evs2) = answers evs1 + answers evs2.
Proof. unfold answers. by rewrite filter_app, length_app. Qed.

Lemma answers_none (evs : list Event) :
  Forall (λ ev, is_answer ev = false) evs → answers evs = 0.
Proof.
  unfold answers. induction 1 as [| ev evs Hev _ IH]; [reflexivity |].
  rewrite filter_cons. destruct (decide (is_answer ev = true)); [congruence | exact IH].
Qed.

Lemma do_POST_one_answer (E : Env) (req : Request) (w : World) :
  ∃ evs,
    trace (world_after (do_POST E req) w) = trace w ++ evs ∧ answers evs = 1.
Proof.
  assert (Hs : steps (extends_with (λ ev, is_answer ev = false)) (process_body E req))
    by (apply process_body_within; intros; reflexivity).
  set (w3 := {| self := self w;
                trace := ((trace w ++ [SendResponse 200])
                            ++ [SendHeader "content-type" "text/html"])
                            ++ [EndHeaders] |}).
  destruct (Hs w3) as (evs & Htr & Hall).
  exists ([SendResponse 200; SendHeader "content-type" "text/html"; EndHeaders] ++ evs).
  split.
  - change (world_after (do_POST E req) w) with (world_after (process_body E req) w3).
    rewrite Htr. subst w3. cbn [trace]. by rewrite <- !app_assoc.
  - rewrite answers_app, (answers_none evs Hall). reflexivity.
Qed.

Lemma serve_forever_counts (E : Env) (reqs : list Request) (w : World) :
  ∃ evs,
    trace (world_after (serve_forever E reqs) w) = trace w ++ evs
    ∧ answers evs ≤ length reqs
    ∧ match ending (serve_forever E reqs) w with
      | Return Waiting => answers evs = length reqs
      | Return LoopLeft => True
      | _ => False
      end.
Proof.
  revert w. induction reqs as [| req rest IH]; intros w.
  - exists []. unfold ending, world_after, serve_forever, try_except. cbn [serve_loop].
    unfold gets, mbind, mret, M_mbind, M_bind, M_mret, M_ret. cbn [fst snd].
    split; [by rewrite app_nil_r |]. split; [reflexivity |].
    by destruct (stopped (self w)).
  - destruct (stopped (self w)) eqn:Hrun.
    + exists []. unfold ending, world_after, serve_forever, try_except. cbn [serve_loop].
      unfold gets, mbind, mret, M_mbind, M_bind, M_mret, M_ret. rewrite Hrun.
      cbn [fst snd]. split; [by rewrite app_nil_r |]. split; [cbn; lia | exact I].
    + destruct (do_POST_one_answer E req w) as (evs1 & Htr1 & Hone).
      destruct (safe_do_POST E req w) as (evs0 & _ & Hend).
      unfold ending, world_after in *.
      rewrite (serve_forever_step E req rest w Hrun).
      destruct (do_POST E req w) as [[[] | e |] w1]; cbn [fst snd] in *; [| | done].
      * destruct (IH w1) as (evs2 & Htr2 & Hle & Hlast).
        exists (evs1 ++ evs2). split; [rewrite Htr2, Htr1; by rewrite <- app_assoc |].
        rewrite answers_app, Hone. cbn [length]. split; [lia |].
        destruct (serve_forever E rest w1) as [[[|] | |] w2]; cbn [fst] in *;
          try done. lia.
      * assert (Hgo : ∀ w2 : outcome Served * World,
                  (∃ evs2,
                     trace w2.2 = trace w1 ++ evs2
                     ∧ answers evs2 ≤ length rest
                     ∧ match w2.1 with
                       | Return Waiting => answers evs2 = length rest
                       | Return LoopLeft => True
                       | _ => False
                       end) →
                  ∃ evs,
                    trace w2.2 = trace w ++ evs
                    ∧ answers evs ≤ length (req :: rest)
                    ∧ match w2.1 with
                      | Return Waiting => answers evs = length (req :: rest)
                      | Return LoopLeft => True
                      | _ => False
                      end).
        { intros [o w2] (evs2 & Htr2 & Hle & Hlast). cbn [fst snd] in *.
          exists (evs1 ++ evs2). split; [rewrite Htr2, Htr1; by rewrite <- app_assoc |].
          rewrite answers_app, Hone. cbn [length]. split; [lia |].
          destruct o as [[|] | |]; try done. lia. }
        destruct e; try (apply Hgo, IH).
        exists (evs1 ++ [Log EXCEPTION "Unexpected error" []]). cbn [fst snd trace].
        split; [rewrite Htr1; by rewrite <- app_assoc |].
        rewrite answers_app, Hone.
        replace (answers [Log EXCEPTION "Unexpected error" []]) with 0 by reflexivity.
        cbn [length]. split; [lia | exact I].
Qed.

(** X19: [serve_forever] always returns: no exception leaves it and it never
    replaces the process.  It answers a request with status 200 at most
    once per request that came in, and when it is still waiting for the
    next request, every request that came in has been answered. *)
Theorem serve_forever_always_returns (E : Env) (reqs : list Request) (w : World) :
  let w' := world_after (serve_forever E reqs) w in
  (∃ r, ending (serve_forever E reqs) w = Return r)
  ∧ answers (emitted w w') ≤ length reqs
  ∧ (ending (serve_forever E reqs) w = Return Waiting →
     answers (emitted w w') = length reqs).
Proof.
  intros w'. subst w'.
  destruct (serve_forever_counts E reqs w) as (evs & Htr & Hle & Hend).
  rewrite (emitted_app w _ evs Htr).
  destruct (ending (serve_forever E reqs) w) as [[|] | |]; try done.
  - split; [by eexists |]. split; [exact Hle | discriminate].
  - split; [by eexists |]. split; [exact Hle | done].
Qed.

Lemma serve_forever_always_returns_witness :
  answers
    (emitted (new_world true)
       (world_after (serve_forever calm_env [headless_request; headless_request])
          (new_world true))) = 2.
Proof.
  destruct (serve_forever_always_returns calm_env [headless_request; headless_request]
              (new_world true)) as (_ & _ & Hall).
  apply Hall. reflexivity.
Defined.

(** ** Construction *)

(** Every run of [__init__] that returns, by cases on the answers of the
    collaborators. *)
Lemma init_shape
    (E : Env) (SE : SetupEnv) (registry : gmap string Skill)
    (ip port : option string) (topic : string) (s : Subscriber)
    (t : list SetupEvent) :
  init E SE registry ip port topic [] = (Return s, t) →
  ∃ address bound before,
    s = {| last_ping_sent := None;
           last_ping_received := None;
           ping_thread_started := false;
           stopped := false;
           manual_port_forward := given port;
           skills := registry;
           topic_arn := topic;
           endpoint_url := format_endpoint address bound;
           server_port := bound |}
    ∧ (given ip = true → ip = Some address)
    ∧ t = before ++ [SnsSubscribe topic "http" (format_endpoint address bound)]
    ∧ (given port = false →
       UpnpAddPortMapping bound "TCP" (upnp_lanaddr SE) bound "" "" ∈ before)
    ∧ (given port = true → Forall (λ ev, ¬ is_setup_upnp ev) before).
Proof.
  unfold init, subscribe, http_server, initialize_upnp, get_external_ip,
    addportmapping, setup_call, setup_log, setup_try, setup_emit, setup_ask,
    setup_raise, mbind, mret, Setup_mbind, Setup_bind, Setup_mret, Setup_ret.
  intros Hrun.
  repeat (case_match; cbn [fst snd app length] in *; simplify_eq).
  all: cbn [endpoint_url topic_arn server_port].
  all: eexists _, _, _; split; [reflexivity |].
  all: split; [intros ?; first [reflexivity | discriminate] |].
  all: split; [reflexivity |].
  all: cbn [app]; split; intros ?;
    first [discriminate | set_solver | repeat constructor; simpl; tauto].
Qed.

(** X20: whatever the environment, when [__init__] returns, the instance is
    fresh (no ping sent or received, thread not started, not stopped), it
    holds the registry and the topic it was given, and it forwards the port
    by hand exactly when a port was given.  The endpoint it has subscribed
    with, as its last effect, carries the port the server listens on and
    the address it was given, if any; without a given port that same port
    has been mapped on the router, and with one the router was never
    asked. *)
Theorem init_returns_consistent_instance
    (E : Env) (SE : SetupEnv) (registry : gmap string Skill)
    (ip port : option string) (topic : string) (s : Subscriber)
    (t : list SetupEvent) :
  init E SE registry ip port topic [] = (Return s, t) →
  last_ping_sent s = None
  ∧ last_ping_received s = None
  ∧ ping_thread_started s = false
  ∧ stopped s = false
  ∧ skills s = registry
  ∧ topic_arn s = topic
  ∧ manual_port_forward s = given port
  ∧ (∃ address,
       endpoint_url s = format_endpoint address (server_port s)
       ∧ (given ip = true → ip = Some address))
  ∧ last t = Some (SnsSubscribe topic "http" (endpoint_url s))
  ∧ (given port = false →
     UpnpAddPortMapping (server_port s) "TCP" (upnp_lanaddr SE) (server_port s) "" ""
       ∈ t)
  ∧ (given port = true → Forall (λ ev, ¬ is_setup_upnp ev) t).
Proof.
  intros Hrun.
  destruct (init_shape E SE registry ip port topic s t Hrun)
    as (address & bound & before & -> & Hip & -> & Hadd & Hquiet).
  cbn [last_ping_sent last_ping_received ping_thread_started stopped skills
       topic_arn manual_port_forward endpoint_url server_port].
  repeat match goal with |- _ ∧ _ => split end; try reflexivity.
  - by exists address.
  - apply last_snoc.
  - intros Hauto. apply elem_of_app. left. by apply Hadd.
  - intros Hman. apply Forall_app. split; [by apply Hquiet |].
    repeat constructor. simpl. tauto.
Qed.

Lemma init_returns_consistent_instance_witness :
  last_ping_sent (new_subscriber true) = None
  ∧ last_ping_received (new_subscriber true) = None
  ∧ ping_thread_started (new_subscriber true) = false
  ∧ stopped (new_subscriber true) = false
  ∧ skills (new_subscriber true) = ∅
  ∧ topic_arn (new_subscriber true) = "arn:aws:sns:eu-west-1:1:alexa"
  ∧ manual_port_forward (new_subscriber true) = given (Some "8080")
  ∧ (∃ address,
       endpoint_url (new_subscriber true)
       = format_endpoint address (server_port (new_subscriber true))
       ∧ (given (Some "203.0.113.7") = true → Some "203.0.113.7" = Some address))
  ∧ last [Boto3Client "sns"; ServerBind 8080;
          SetupLog INFO "Listening on {}" [AStr "http://203.0.113.7:8080"];
          SetupLog INFO "Subscribing for Alexa commands..." [];
          SnsSubscribe "arn:aws:sns:eu-west-1:1:alexa" "http" "http://203.0.113.7:8080"]
    = Some (SnsSubscribe "arn:aws:sns:eu-west-1:1:alexa" "http"
              (endpoint_url (new_subscriber true)))
  ∧ (given (Some "8080") = false →
     UpnpAddPortMapping (server_port (new_subscriber true)) "TCP"
       (upnp_lanaddr calm_setup) (server_port (new_subscriber true)) "" ""
       ∈ [Boto3Client "sns"; ServerBind 8080;
          SetupLog INFO "Listening on {}" [AStr "http://203.0.113.7:8080"];
          SetupLog INFO "Subscribing for Alexa commands..." [];
          SnsSubscribe "arn:aws:sns:eu-west-1:1:alexa" "http" "http://203.0.113.7:8080"])
  ∧ (given (Some "8080") = true →
     Forall (λ ev, ¬ is_setup_upnp ev)
       [Boto3Client "sns"; ServerBind 8080;
        SetupLog INFO "Listening on {}" [AStr "http://203.0.113.7:8080"];
        SetupLog INFO "Subscribing for Alexa commands..." [];
        SnsSubscribe "arn:aws:sns:eu-west-1:1:alexa" "http" "http://203.0.113.7:8080"]).
Proof.
  apply (init_returns_consistent_instance port_env calm_setup ∅
           (Some "203.0.113.7") (Some "8080") "arn:aws:sns:eu-west-1:1:alexa").
  vm_compute. reflexivity.
Defined.

(** X21: without a given port, a UPnP discovery that fails is fatal at once:
    [__init__] logs it and ends in [SystemExit 1] with nothing else done,
    no server bound and no subscription asked for. *)
Theorem init_exits_when_upnp_fails
    (E : Env) (SE : SetupEnv) (registry : gmap string Skill)
    (ip port : option string) (topic : string) (e : exn) (t : list SetupEvent) :
  given port = false →
  initialize_upnp SE [] = (Raise e, t) →
  init E SE registry ip port topic [] =
    (Raise (SystemExit 1),
     t ++ [SetupLog EXCEPTION
             "Failed to configure UPnP. Please map port manually and pass PORT environment variable."
             []])
  ∧ Forall is_setup_upnp t.
Proof.
  intros Hauto Hfail. split.
  - unfold init. rewrite Hauto.
    unfold setup_try, setup_log, setup_emit, setup_raise, mbind at 1, Setup_mbind,
      Setup_bind at 1.
    rewrite Hfail. reflexivity.
  - revert Hfail.
    unfold initialize_upnp, setup_call, setup_emit, setup_ask, setup_raise, mbind,
      mret, Setup_mbind, Setup_bind, Setup_mret, Setup_ret.
    repeat (case_match; cbn [fst snd app length] in *; simplify_eq);
      intros [= <- <-]; repeat constructor.
Qed.

Lemma init_exits_when_upnp_fails_witness :
  init calm_env no_gateway_setup ∅ None None "arn:aws:sns:eu-west-1:1:alexa" [] =
    (Raise (SystemExit 1),
     [UpnpDiscover 10; UpnpSelectIgd] ++
     [SetupLog EXCEPTION
        "Failed to configure UPnP. Please map port manually and pass PORT environment variable."
        []])
  ∧ Forall is_setup_upnp [UpnpDiscover 10; UpnpSelectIgd].
Proof.
  apply (init_exits_when_upnp_fails calm_env no_gateway_setup ∅ None None
           "arn:aws:sns:eu-west-1:1:alexa" (Exception "selectigd")).
  - reflexivity.
  - reflexivity.
Defined.


(** X23: what [addportmapping] returns is not looked at.  On an instance
    that forwards its port itself, a router that answers the mapping
    request, with true or with false, lets [subscribe] go on to SNS, and
    with an SNS that accepts, [subscribe] returns. *)
Theorem subscribe_ignores_the_mapping_answer
    (SE : SetupEnv) (s : Subscriber) (t : list SetupEvent) (answer : bool) :
  manual_port_forward s = false →
  upnp_addportmapping SE (length t) = Some answer →
  (∀ k, sns_subscribe SE k = true) →
  subscribe SE s t =
    (Return tt,
     t ++ [UpnpAddPortMapping (server_port s) "TCP" (upnp_lanaddr SE) (server_port s) "" "";
           SetupLog INFO "Subscribing for Alexa commands..." [];
           SnsSubscribe (topic_arn s) "http" (endpoint_url s)]).
Proof.
  intros Hauto Hanswer Hok.
  unfold subscribe, addportmapping, setup_call, setup_log, setup_try, setup_emit,
    setup_ask, setup_raise, mbind, mret, Setup_mbind, Setup_bind, Setup_mret,
    Setup_ret.
  rewrite Hauto, Hanswer, Hok. by rewrite <- !app_assoc.
Qed.

Lemma subscribe_ignores_the_mapping_answer_witness :
  subscribe refusing_setup automatic_subscriber [] =
    (Return tt,
     [] ++ [UpnpAddPortMapping (server_port automatic_subscriber) "TCP"
              (upnp_lanaddr refusing_setup) (server_port automatic_subscriber) "" "";
            SetupLog INFO "Subscribing for Alexa commands..." [];
            SnsSubscribe (topic_arn automatic_subscriber) "http"
              (endpoint_url automatic_subscriber)]).
Proof.
  apply (subscribe_ignores_the_mapping_answer refusing_setup automatic_subscriber []
           false).
  - reflexivity.
  - reflexivity.
  - intros k. reflexivity.
Defined.


Lemma unsubscribe_owned_begins (E : Env) (w : World) :
  manual_port_forward (self w) = false →
  ∃ evs,
    trace (world_after (unsubscribe E) w) =
      trace w ++ UpnpDeletePortMapping (server_port (self w)) "TCP" :: evs.
Proof.
  intros Hown.
  unfold world_after, unsubscribe, deleteportmapping, list_subscriptions_by_topic,
    sns_client_unsubscribe, log, gets, ask, emit, sys_exit, raise, mbind, mret,
    M_mbind, M_bind, M_mret, M_ret.
  rewrite Hown.
  repeat (case_match; cbn [fst snd self trace] in *; simplify_eq);
    rewrite <- ?app_assoc; eexists; reflexivity.
Qed.

Lemma shutdown_trace (E : Env) (w : World) (evs : list Event) :
  stopped (self w) = false →
  trace (world_after (unsubscribe E)
           {| self := set_stopped true (self w);
              trace := trace w ++ [Log INFO "Shutting down HTTP listener" []] |}) =
    (trace w ++ [Log INFO "Shutting down HTTP listener" []]) ++ evs →
  emitted w (world_after (shutdown E) w) =
    Log INFO "Shutting down HTTP listener" [] :: evs.
Proof.
  intros Hrun Htr. unfold world_after at 1. rewrite (shutdown_running E w Hrun).
  set (w1 := {| self := set_stopped true (self w); trace := _ |}) in *.
  fold (world_after (unsubscribe E;; emit ServerShutdown;; ping_thread_join 5) w1).
  rewrite (world_after_cut _ _ w1 (unsubscribe_never_returns E)).
  apply emitted_app. rewrite Htr. by rewrite <- app_assoc.
Qed.

(** X24: the port mapping from start to end.  An instance [__init__] has
    built with a given port never had the router asked for anything and
    does not ask it when it shuts down.  One built without a port has had
    the port of its server mapped, and its [shutdown] asks the router, right
    after logging, to delete the mapping of that same port. *)
Theorem port_mapping_lifecycle
    (E E' : Env) (SE : SetupEnv) (registry : gmap string Skill)
    (ip port : option string) (topic : string) (s : Subscriber)
    (t : list SetupEvent) :
  init E SE registry ip port topic [] = (Return s, t) →
  let w := {| self := s; trace := [] |} in
  if given port
  then Forall (λ ev, ¬ is_setup_upnp ev) t
       ∧ Forall (λ ev, ¬ is_upnp ev) (emitted w (world_after (shutdown E') w))
  else UpnpAddPortMapping (server_port s) "TCP" (upnp_lanaddr SE) (server_port s) "" ""
         ∈ t
       ∧ ∃ evs,
           emitted w (world_after (shutdown E') w) =
             [Log INFO "Shutting down HTTP listener" [];
              UpnpDeletePortMapping (server_port s) "TCP"] ++ evs.
Proof.
  intros Hrun w.
  destruct (init_shape E SE registry ip port topic s t Hrun)
    as (address & bound & before & Hs & _ & -> & Hadd & Hquiet).
  assert (Hstop : stopped (self w) = false) by (subst w s; reflexivity).
  assert (Hman : manual_port_forward (self w) = given port) by (subst w s; reflexivity).
  assert (Hport : server_port s = bound) by (subst s; reflexivity).
  set (w1 := {| self := set_stopped true (self w);
                trace := trace w ++ [Log INFO "Shutting down HTTP listener" []] |}).
  destruct (given port) eqn:Hgiven.
  - split.
    + apply Forall_app. split; [by apply Hquiet |]. repeat constructor. simpl. tauto.
    + destruct (unsubscribe_manual_no_upnp E' w1 Hman) as (evs & Htr & Hall).
      rewrite (shutdown_trace E' w evs Hstop Htr).
      constructor; [simpl; tauto | exact Hall].
  - split.
    + apply elem_of_app. left. rewrite Hport. by apply Hadd.
    + destruct (unsubscribe_owned_begins E' w1 Hman) as (evs & Htr).
      exists evs. by rewrite (shutdown_trace E' w _ Hstop Htr).
Qed.

Lemma port_mapping_lifecycle_witness :
  UpnpAddPortMapping (server_port automatic_subscriber) "TCP" (upnp_lanaddr calm_setup)
    (server_port automatic_subscriber) "" ""
    ∈ [UpnpDiscover 10; UpnpSelectIgd; Boto3Client "sns"; ServerBind 0;
       RequestsGet "https://api.ipify.org";
       SetupLog INFO "Listening on {}" [AStr "http://203.0.113.7:49152"];
       UpnpAddPortMapping 49152 "TCP" "192.168.1.20" 49152 "" "";
       SetupLog INFO "Subscribing for Alexa commands..." [];
       SnsSubscribe "arn:aws:sns:eu-west-1:1:alexa" "http" "http://203.0.113.7:49152"]
  ∧ ∃ evs,
      emitted {| self := automatic_subscriber; trace := [] |}
        (world_after (shutdown calm_env) {| self := automatic_subscriber; trace := [] |}) =
        [Log INFO "Shutting down HTTP listener" [];
         UpnpDeletePortMapping (server_port automatic_subscriber) "TCP"] ++ evs.
Proof.
  apply (port_mapping_lifecycle calm_env calm_env calm_setup ∅ None None
           "arn:aws:sns:eu-west-1:1:alexa" automatic_subscriber).
  vm_compute. reflexivity.
Defined.
